(** * Product analytics classification (src/components/DataAnalytics.js)

    A shallow embedding of the classification performed by [fetchAnalytics]
    once both responses have been decoded (source lines 45-71), together with
    the fragment of the JavaScript platform it runs on: primitive values and
    their coercions, [Array.prototype.filter/sort/slice] over a store of
    mutable arrays, and [Date.prototype.toISOString]. *)

From Stdlib Require Import ZArith List Lia Bool Permutation Sorted.
From Stdlib Require Import Ascii String.
From stdpp Require Import base option list strings gmap.

Local Open Scope string_scope.
Local Open Scope Z_scope.

(** ** JavaScript primitive values *)

Module JS.

(** Numbers.  The counters and time values handled by the component are
    integral, so a Number is either [NaN] or an integer. *)
Inductive number :=
  | NaN
  | Num (z : Z).

#[global] Instance number_eq_dec : EqDecision number.
Proof. solve_decision. Defined.

(** The values a property read on a decoded JSON object can give:
    [VUndefined] is what reading an absent property returns. *)
Inductive value :=
  | VUndefined
  | VNull
  | VBool (b : bool)
  | VNum (n : number)
  | VStr (s : string).

#[global] Instance value_eq_dec : EqDecision value.
Proof. solve_decision. Defined.

(** Thrown exceptions. *)
Inductive exn :=
  | RangeError (msg : string)
  | TypeError (msg : string).

(** The outcome of evaluating an expression: a value or a throw. *)
Inductive completion (A : Type) :=
  | Normal (a : A)
  | Throw (e : exn).
Arguments Normal {A} a.
Arguments Throw {A} e.

#[global] Instance completion_ret : MRet completion := @Normal.
#[global] Instance completion_bind : MBind completion := fun A B f c =>
  match c with
  | Normal a => f a
  | Throw e => Throw e
  end.

#[global] Instance completion_fmap : FMap completion := fun A B f c =>
  match c with
  | Normal a => Normal (f a)
  | Throw e => Throw e
  end.

(** Behaviour the language leaves to the host or that is not modelled
    symbol by symbol here: the StringToNumber conversion of a String to a
    Number, and [Date.parse], whose result is a time value or [NaN]. *)
Class Host := {
  StringToNumber : string -> number;
  Date_parse : string -> number
}.

(** ToBoolean *)
Definition ToBoolean (v : value) : bool :=
  match v with
  | VUndefined | VNull => false
  | VBool b => b
  | VNum NaN => false
  | VNum (Num z) => negb (Z.eqb z 0)
  | VStr s => negb (String.eqb s "")
  end.

(** Relational operators on Numbers: any comparison with NaN is false. *)
Definition lt (a b : number) : bool :=
  match a, b with
  | Num x, Num y => Z.ltb x y
  | _, _ => false
  end.

Definition gt (a b : number) : bool := lt b a.

(** Number::subtract *)
Definition sub (a b : number) : number :=
  match a, b with
  | Num x, Num y => Num (x - y)
  | _, _ => NaN
  end.

(** Strict equality [===] *)
Definition strict_eq (a b : value) : bool :=
  match a, b with
  | VUndefined, VUndefined => true
  | VNull, VNull => true
  | VBool x, VBool y => Bool.eqb x y
  | VNum (Num x), VNum (Num y) => Z.eqb x y
  | VStr x, VStr y => String.eqb x y
  | _, _ => false
  end.

(** [s.split(sep)[0]] for a one-character separator: the part of [s] before
    the first occurrence of [sep], all of [s] when there is none. *)
Fixpoint split_head (sep : ascii) (s : string) : string :=
  match s with
  | EmptyString => EmptyString
  | String c s' => if Ascii.eqb c sep then EmptyString else String c (split_head sep s')
  end.


(** ToNumber on primitive values *)
Definition ToNumber `{Host} (v : value) : number :=
  match v with
  | VUndefined => NaN
  | VNull => Num 0
  | VBool b => Num (if b then 1 else 0)
  | VNum n => n
  | VStr s => StringToNumber s
  end.

(** The operators the component applies to property values.  [a > b] and
    [a < b] are given for operands that are not both Strings (one operand
    is a Number literal at every use), where both sides go through
    ToNumber. *)
Definition Gt `{Host} (a b : value) : value := VBool (gt (ToNumber a) (ToNumber b)).
Definition Lt `{Host} (a b : value) : value := VBool (lt (ToNumber a) (ToNumber b)).
Definition Sub `{Host} (a b : value) : value := VNum (sub (ToNumber a) (ToNumber b)).

(** [a && b] *)
Definition And (a b : value) : value := if ToBoolean a then b else a.

(** The characters of a string all satisfy a test. *)
Fixpoint all_chars (P : ascii -> bool) (s : string) : bool :=
  match s with
  | EmptyString => true
  | String c s' => P c && all_chars P s'
  end.

(** *** Dates (ECMA-262, Date objects) *)

Definition msPerDay : Z := 86400000.
Definition msPerHour : Z := 3600000.
Definition msPerMinute : Z := 60000.
Definition msPerSecond : Z := 1000.

Definition Day (t : Z) : Z := t / msPerDay.
Definition HourFromTime (t : Z) : Z := (t / msPerHour) mod 24.
Definition MinFromTime (t : Z) : Z := (t / msPerMinute) mod 60.
Definition SecFromTime (t : Z) : Z := (t / msPerSecond) mod 60.
Definition msFromTime (t : Z) : Z := t mod msPerSecond.

(** Year, month (1-12) and day of the month of a day number counted from
    1970-01-01 in the proleptic Gregorian calendar.  The computation works
    in 400-year eras that start on a 1 March. *)
Definition daysPerEra : Z := 146097.

Definition civil_of_doe (era doe : Z) : Z * Z * Z :=
  let yoe := (doe - doe / 1460 + doe / 36524 - doe / 146096) / 365 in
  let doy := doe - (365 * yoe + yoe / 4 - yoe / 100) in
  let mp := (5 * doy + 2) / 153 in
  let d := doy - (153 * mp + 2) / 5 + 1 in
  let m := if Z.ltb mp 10 then mp + 3 else mp - 9 in
  (yoe + era * 400 + (if Z.leb m 2 then 1 else 0), m, d).

Definition civil_from_days (z : Z) : Z * Z * Z :=
  let z' := z + 719468 in
  civil_of_doe (z' / daysPerEra) (z' mod daysPerEra).

(** The day number of a calendar date, the inverse of [civil_from_days]. *)
Definition days_from_civil (ymd : Z * Z * Z) : Z :=
  let '(y, m, d) := ymd in
  let y' := y - (if Z.leb m 2 then 1 else 0) in
  let yoe := y' mod 400 in
  let doy := (153 * (if Z.ltb 2 m then m - 3 else m + 9) + 2) / 5 + d - 1 in
  (y' / 400) * daysPerEra + (yoe * 365 + yoe / 4 - yoe / 100 + doy) - 719468.

(** DayFromYear of ECMA-262: the day number of 1 January of year [y]. *)
Definition DayFromYear (y : Z) : Z :=
  365 * (y - 1970) + (y - 1969) / 4 - (y - 1901) / 100 + (y - 1601) / 400.

Definition YearFromTime (t : Z) : Z := fst (fst (civil_from_days (Day t))).
(** MonthFromTime is 0-based, as in the language. *)
Definition MonthFromTime (t : Z) : Z := snd (fst (civil_from_days (Day t))) - 1.
Definition DateFromTime (t : Z) : Z := snd (civil_from_days (Day t)).

(** The range of time values: 100,000,000 days either side of the epoch. *)
Definition maxTime : Z := 8640000000000000.

Definition TimeClip (n : number) : number :=
  match n with
  | NaN => NaN
  | Num t => if Z.ltb maxTime (Z.abs t) then NaN else Num t
  end.

(** A Date object is represented by its time value.  [new Date(v)] parses
    a String argument and converts any other argument with ToNumber. *)
Definition Date_new `{Host} (v : value) : number :=
  match v with
  | VStr s => TimeClip (Date_parse s)
  | _ => TimeClip (ToNumber v)
  end.

(** Decimal digits *)
Definition digit_char (d : Z) : ascii :=
  match d with
  | 0 => "0" | 1 => "1" | 2 => "2" | 3 => "3" | 4 => "4"
  | 5 => "5" | 6 => "6" | 7 => "7" | 8 => "8" | 9 => "9"
  | _ => "0"
  end%char.

Definition is_digit (c : ascii) : bool :=
  match c with
  | "0" | "1" | "2" | "3" | "4" | "5" | "6" | "7" | "8" | "9" => true
  | _ => false
  end%char.

Definition digit_value (c : ascii) : Z :=
  match c with
  | "0" => 0 | "1" => 1 | "2" => 2 | "3" => 3 | "4" => 4
  | "5" => 5 | "6" => 6 | "7" => 7 | "8" => 8 | "9" => 9
  | _ => 0
  end%char.

(** [n] written with exactly [w] decimal digits (its [w] low digits). *)
Fixpoint pad_digits (w : nat) (n : Z) (acc : string) : string :=
  match w with
  | O => acc
  | S w' => pad_digits w' (n / 10) (String (digit_char (n mod 10)) acc)
  end.

(** Years 0 to 9999 are written with four digits, any other year with a
    sign and six digits. *)
Definition year_string (y : Z) : string :=
  if Z.leb 0 y && Z.leb y 9999 then pad_digits 4 y ""
  else String (if Z.ltb y 0 then "-" else "+")%char (pad_digits 6 (Z.abs y) "").

(** The date part [YYYY-MM-DD] of the ISO format. *)
Definition date_string (y m d : Z) : string :=
  year_string y ++ String "-" (pad_digits 2 m (String "-" (pad_digits 2 d ""))).

Definition iso_date (t : Z) : string :=
  date_string (YearFromTime t) (MonthFromTime t + 1) (DateFromTime t).

(** The time part [HH:mm:ss.sssZ]. *)
Definition iso_time (t : Z) : string :=
  pad_digits 2 (HourFromTime t) (String ":" (
  pad_digits 2 (MinFromTime t) (String ":" (
  pad_digits 2 (SecFromTime t) (String "." (
  pad_digits 3 (msFromTime t) "Z")))))).

(** A time value in the range of Date objects. *)
Definition time_valid (t : Z) : Prop := - maxTime <= t <= maxTime.

(** [Date.prototype.toISOString]: throws a RangeError when the time value
    is not finite. *)
Definition Date_toISOString (tv : number) : completion string :=
  match tv with
  | NaN => Throw (RangeError "Invalid time value")
  | Num t => Normal (iso_date t ++ String "T" (iso_time t))
  end.

End JS.

(** ** Arrays of records in a mutable store *)

Module Store.
Import JS.

(** A decoded product record: a JavaScript object read as a finite map from
    property names to values; a property that is not set reads as
    [VUndefined]. *)
Abbreviation product := (gmap string value).

Definition get (o : product) (k : string) : value := default VUndefined (o !! k).

(** Arrays are mutable objects: the store maps a location to the current
    contents of the array that lives there. *)
Definition loc := nat.
Definition heap := list (list product).

(** Computations that read and write the store and may throw. *)
Definition M (A : Type) : Type := heap -> completion A * heap.

#[global] Instance M_ret : MRet M := fun A a h => (Normal a, h).
#[global] Instance M_bind : MBind M := fun A B f m h =>
  match m h with
  | (Normal a, h') => f a h'
  | (Throw e, h') => (Throw e, h')
  end.

Definition lift {A} (c : completion A) : M A := fun h => (c, h).

Definition alloc (xs : list product) : M loc := fun h => (Normal (length h), (h ++ [xs])%list).
Definition read (a : loc) : M (list product) := fun h => (Normal (default [] (h !! a)), h).
Definition write (a : loc) (xs : list product) : M unit := fun h => (Normal tt, <[a:=xs]> h).

(** The elements kept by [filter], in order; a callback that throws aborts
    the traversal. *)
Fixpoint filter_elems (callback : product -> completion value) (xs : list product)
  : completion (list product) :=
  match xs with
  | [] => Normal []
  | x :: xs' =>
      selected ← callback x;
      rest ← filter_elems callback xs';
      Normal (if ToBoolean selected then x :: rest else rest)
  end.

(** [Array.prototype.filter]: a new array, the receiver is left as it is. *)
Definition Array_filter (callback : product -> completion value) (a : loc) : M loc :=
  xs ← read a;
  kept ← lift (filter_elems callback xs);
  alloc kept.

(** SortCompare: the comparator's result goes through ToNumber, and [NaN]
    counts as [+0]. *)
Definition SortCompare `{Host} (comparefn : product -> product -> value) (x y : product) : number :=
  match ToNumber (comparefn x y) with
  | NaN => Num 0
  | v => v
  end.

(** The sort is stable (ECMAScript 2019): an element moves behind another
    one only when the comparator is positive on the pair.  For a consistent
    comparator the result of a stable sort is determined, and it is computed
    here by insertion. *)
Fixpoint sort_insert `{Host} (comparefn : product -> product -> value) (x : product)
  (sorted : list product) : list product :=
  match sorted with
  | [] => [x]
  | y :: rest =>
      if gt (SortCompare comparefn x y) (Num 0)
      then y :: sort_insert comparefn x rest
      else x :: y :: rest
  end.

Fixpoint sort_elems `{Host} (comparefn : product -> product -> value) (xs : list product)
  : list product :=
  match xs with
  | [] => []
  | x :: xs' => sort_insert comparefn x (sort_elems comparefn xs')
  end.

(** [Array.prototype.sort]: sorts the receiver in place and returns it. *)
Definition Array_sort `{Host} (comparefn : product -> product -> value) (a : loc) : M loc :=
  xs ← read a;
  _ ← write a (sort_elems comparefn xs);
  mret a.

(** [Array.prototype.slice(start, end)] for [0 <= start <= end]: a new array. *)
Definition Array_slice (a : loc) (start stop : nat) : M loc :=
  xs ← read a;
  alloc (List.firstn (stop - start) (List.skipn start xs)).

(** [a.length] *)
Definition Array_length (a : loc) : M nat :=
  xs ← read a;
  mret (length xs).

End Store.

(** ** The component *)

Module Analytics.
Import JS Store.

(** The component state set by [setAnalyticsData].  Its three lists are
    arrays: references ([arr := loc]) while the code runs, their contents
    ([arr := list product]) once the state is observed. *)
Record analyticsData (arr : Type) := {
  topSaleableProducts : arr;
  nonSaleableProducts : arr;
  currentRatedProducts : arr;
  loading : bool;
  error : option string;
  saleableCount : nat;
  nonSaleableCount : nat
}.
Arguments topSaleableProducts {arr} _.
Arguments nonSaleableProducts {arr} _.
Arguments currentRatedProducts {arr} _.
Arguments loading {arr} _.
Arguments error {arr} _.
Arguments saleableCount {arr} _.
Arguments nonSaleableCount {arr} _.

(** The contents of the arrays a state refers to. *)
Definition contents (h : heap) (d : analyticsData loc) : analyticsData (list product) :=
  {| topSaleableProducts := default [] (h !! topSaleableProducts d);
     nonSaleableProducts := default [] (h !! nonSaleableProducts d);
     currentRatedProducts := default [] (h !! currentRatedProducts d);
     loading := loading d;
     error := error d;
     saleableCount := saleableCount d;
     nonSaleableCount := nonSaleableCount d |}.

(** The state the component starts in ([useState], source lines 17-25). *)
Definition initialState : analyticsData (list product) :=
  {| topSaleableProducts := [];
     nonSaleableProducts := [];
     currentRatedProducts := [];
     loading := true;
     error := None;
     saleableCount := 0;
     nonSaleableCount := 0 |}.

Section fetchAnalytics.
Context `{Host}.

(** [product => product.total_units_sold > 20] *)
Definition isSaleable (product : product) : value :=
  Gt (get product "total_units_sold") (VNum (Num 20)).

(** [product => product.total_units_sold < 3 && product.total_units_sold > 0] *)
Definition isNonSaleable (product : product) : value :=
  And (Lt (get product "total_units_sold") (VNum (Num 3)))
      (Gt (get product "total_units_sold") (VNum (Num 0))).

(** [(a, b) => b.total_units_sold - a.total_units_sold] *)
Definition byUnitsSoldDesc (a b : product) : value :=
  Sub (get b "total_units_sold") (get a "total_units_sold").

(** [new Date().toISOString().split('T')[0]], the clock reading [now]. *)
Definition todayString (now : Z) : completion string :=
  iso ← Date_toISOString (Num now);
  mret (split_head "T" iso).

(** The callback of the third filter (source lines 55-59). *)
Definition isRatedToday (today : string) (product : product) : completion value :=
  ratingDate ←
    (if ToBoolean (get product "latest_rating_date")
     then iso ← Date_toISOString (Date_new (get product "latest_rating_date"));
          mret (VStr (split_head "T" iso))
     else mret VNull);
  mret (VBool (strict_eq ratingDate (VStr today))).

(** Source lines 45-71: from [performanceData.performance] to the argument
    of [setAnalyticsData]. *)
Definition classification (performance : loc) (now : Z) : M (analyticsData loc) :=
  saleableProducts ← Array_filter (fun product => mret (isSaleable product)) performance;
  lowSellers ← Array_filter (fun product => mret (isNonSaleable product)) performance;
  nonSaleableProducts ← Array_sort byUnitsSoldDesc lowSellers;
  today ← lift (todayString now);
  currentRatedProducts ← Array_filter (isRatedToday today) performance;
  sortedSaleable ← Array_sort byUnitsSoldDesc saleableProducts;
  top ← Array_slice sortedSaleable 0 10;
  low ← Array_slice nonSaleableProducts 0 10;
  saleableLength ← Array_length saleableProducts;
  nonSaleableLength ← Array_length nonSaleableProducts;
  mret {| topSaleableProducts := top;
          nonSaleableProducts := low;
          currentRatedProducts := currentRatedProducts;
          loading := false;
          error := None;
          saleableCount := saleableLength;
          nonSaleableCount := nonSaleableLength |}.

(** The classification of a decoded array of records: the store holds
    that array and nothing else when the classification starts. *)
Definition run (now : Z) (records : list product) : completion (analyticsData loc) * heap :=
  classification 0%nat now [records].

Definition classify (now : Z) (records : list product)
  : completion (analyticsData (list product)) :=
  match run now records with
  | (Normal d, h) => Normal (contents h d)
  | (Throw e, _) => Throw e
  end.

(** The [catch] clause (source lines 72-79): whatever is thrown inside the
    [try] block leaves the previous lists and counts and sets the error. *)
Definition settle (prev : analyticsData (list product)) (now : Z) (records : list product)
  : analyticsData (list product) :=
  match classify now records with
  | Normal d => d
  | Throw _ =>
      {| topSaleableProducts := topSaleableProducts prev;
         nonSaleableProducts := nonSaleableProducts prev;
         currentRatedProducts := currentRatedProducts prev;
         loading := false;
         error := Some "Failed to fetch analytics data";
         saleableCount := saleableCount prev;
         nonSaleableCount := nonSaleableCount prev |}
  end.

(** *** Vocabulary of the specification *)

(** The number of units sold the filters and the sort work with. *)
Definition units_sold (p : product) : number := ToNumber (get p "total_units_sold").

(** The time value of the latest rating of a record, when the record has a
    rating date (the property is set to a truthy value) that denotes a
    time. *)
Definition rating_time (p : product) : option Z :=
  if ToBoolean (get p "latest_rating_date")
  then match Date_new (get p "latest_rating_date") with
       | Num t => Some t
       | NaN => None
       end
  else None.

(** The record was last rated on UTC day number [day]. *)
Definition rated_on (day : Z) (p : product) : bool :=
  match rating_time p with
  | Some t => Z.eqb (Day t) day
  | None => false
  end.

(** The record sold more than [n] units; more than [lo] and less than [hi]. *)
Definition sold_over (n : Z) (p : product) : bool :=
  match units_sold p with
  | Num z => Z.ltb n z
  | NaN => false
  end.

Definition sold_within (lo hi : Z) (p : product) : bool :=
  match units_sold p with
  | Num z => Z.ltb lo z && Z.ltb z hi
  | NaN => false
  end.

(** The ISO date of the latest rating of the record is [today]. *)
Definition rated_on_date (today : string) (p : product) : bool :=
  match rating_time p with
  | Some t => String.eqb (iso_date t) today
  | None => false
  end.

(** The number of units sold is a number (not [NaN]). *)
Definition counted (p : product) : Prop := exists z, units_sold p = Num z.

(** The rating date of a record, if it has one, denotes a time. *)
Definition rating_date_ok (p : product) : bool :=
  negb (ToBoolean (get p "latest_rating_date")) ||
  match Date_new (get p "latest_rating_date") with
  | Num _ => true
  | NaN => false
  end.

(** Every rating date of the input denotes a time. *)
Definition well_dated (records : list product) : Prop :=
  forallb rating_date_ok records = true.

(** [a] sold at least as many units as [b]. *)
Definition sold_at_least (a b : product) : Prop :=
  exists x y, units_sold a = Num x /\ units_sold b = Num y /\ y <= x.

(** Every record of [s] sold at least as many units as the records behind
    it. *)
Definition descending (s : list product) : Prop := StronglySorted sold_at_least s.

(** For every number of units [k], the records that sold [k] units are the
    same, in the same order, in [s] and in [l]. *)
Definition same_order_per_units (l s : list product) : Prop :=
  forall k : number,
    List.filter (fun p => bool_decide (units_sold p = k)) s =
    List.filter (fun p => bool_decide (units_sold p = k)) l.

(** [s] is [l] sorted by units sold in descending order, the records with
    the same number of units sold in the order they have in [l]. *)
Definition stable_descending_sort (l s : list product) : Prop :=
  Permutation l s /\ descending s /\ same_order_per_units l s.

End fetchAnalytics.
End Analytics.

(** ** Sample data *)

Module Samples.
Import JS Store Analytics.

(** A host that reads unsigned decimal literals and knows three dates. *)
Fixpoint parse_digits (s : string) (acc : Z) : number :=
  match s with
  | EmptyString => Num acc
  | String c s' => if is_digit c then parse_digits s' (10 * acc + digit_value c) else NaN
  end.

Definition sampleHost : Host :=
  {| StringToNumber := fun s => parse_digits s 0;
     Date_parse := fun s =>
       if String.eqb s "2024-05-01T10:00:00.000Z" then Num 1714557600000
       else if String.eqb s "2024-05-01T23:59:59.999Z" then Num 1714607999999
       else if String.eqb s "2024-04-30T23:59:59.999Z" then Num 1714521599999
       else NaN |}.

Definition sold (id units : Z) : product :=
  <["id" := VNum (Num id)]> (<["total_units_sold" := VNum (Num units)]> ∅).

Definition rated (date : string) (p : product) : product :=
  <["latest_rating_date" := VStr date]> p.

(** The five records of the worked example, on 1 May 2024. *)
Definition fiveRecords : list product :=
  [sold 1 25; sold 2 21; sold 3 2; sold 4 0;
   rated "2024-05-01T10:00:00.000Z" (sold 5 2)].

(** 2024-05-01T12:00:00Z and 2024-05-01T20:00:00Z. *)
Definition noon : Z := 1714564800000.
Definition evening : Z := 1714593600000.

(** A record whose rating date is not a date. *)
Definition badRecord : product := rated "not a date" (sold 6 25).

(** A record without the two counters, rated on 1 May 2024. *)
Definition bareRecord : product :=
  <["id" := VNum (Num 7)]> (<["latest_rating_date" := VStr "2024-05-01T23:59:59.999Z"]> ∅).

End Samples.

(** ** The requests *)

Module Fetch.
Import JS Store Analytics.

(** What [res.json()] gives: a rejection when the body is not JSON, else
    the decoded document, of which the code reads [performance] only.
    [performance] is [None] when the document has no array under that
    name. *)
Inductive body :=
  | Unparsable
  | Document (performance : option (list product)).

(** What [fetch] gives: a rejection when the request fails, else a
    response with its [ok] flag and its body. *)
Inductive response :=
  | NetworkError
  | Response (ok : bool) (json : body).

(** What the [try] block (source lines 32-71) can throw. *)
Inductive thrown :=
  | Rejected
  | ErrorObject (message : string)
  | SyntaxError
  | NoPerformanceArray
  | Raised (e : exn).

(** The state the [catch] clause sets (source lines 74-78). *)
Definition errorState (prev : analyticsData (list product)) : analyticsData (list product) :=
  {| topSaleableProducts := topSaleableProducts prev;
     nonSaleableProducts := nonSaleableProducts prev;
     currentRatedProducts := currentRatedProducts prev;
     loading := false;
     error := Some "Failed to fetch analytics data";
     saleableCount := saleableCount prev;
     nonSaleableCount := nonSaleableCount prev |}.

Section fetchAnalytics.
Context `{Host}.

(** The [try] block: both requests are awaited together, the two [ok]
    flags are tested, the two bodies are decoded, the analytics one first,
    and the performance records are classified.  The [catch] clause logs
    what was thrown and otherwise ignores it. *)
Definition tryBlock (now : Z) (analyticsRes performanceRes : response)
  : thrown + analyticsData (list product) :=
  match analyticsRes, performanceRes with
  | NetworkError, _ | _, NetworkError => inl Rejected
  | Response okA jsonA, Response okP jsonP =>
      if negb okA || negb okP
      then inl (ErrorObject "Failed to fetch analytics data")
      else match jsonA with
           | Unparsable => inl SyntaxError
           | Document _ =>
               match jsonP with
               | Unparsable => inl SyntaxError
               | Document None => inl NoPerformanceArray
               | Document (Some records) =>
                   match classify now records with
                   | Normal d => inr d
                   | Throw e => inl (Raised e)
                   end
               end
           end
  end.

(** [fetchAnalytics] (source lines 31-80): the state it leaves, from the
    state [prev] it finds. *)
Definition fetchAnalytics (prev : analyticsData (list product)) (now : Z)
    (analyticsRes performanceRes : response) : analyticsData (list product) :=
  match tryBlock now analyticsRes performanceRes with
  | inr d => d
  | inl _ => errorState prev
  end.

(** The records a pair of responses delivers, when both responses are
    there, both are [ok], both bodies are JSON and the second one has the
    array. *)
Definition delivered (analyticsRes performanceRes : response) : option (list product) :=
  match analyticsRes, performanceRes with
  | Response true (Document _), Response true (Document (Some records)) => Some records
  | _, _ => None
  end.

End fetchAnalytics.
End Fetch.

(** ** What the component renders *)

(** The element the component returns is kept as data: which of the four
    branches is taken, the data of the chart, and for each card its border
    class, header icon, title, count and rows with the values they show and
    the product a click selects.  Wrappers, layout classes and animation
    attributes carry no decision and are left out. *)

Module Render.
Import JS Store Analytics.

(** [a || b] *)
Definition Or (a b : value) : value := if ToBoolean a then a else b.

Inductive icon := Package | Star | TrendingUp | TrendingDown | AlertTriangle | Frown.

(** A value or an element in a place where React expects a child.  The
    text of a rating, [Number(v).toFixed(1)], and of a price,
    [formatPrice(v)], is not computed: the element keeps the value [v] it is
    computed from. *)
Inductive child :=
  | Text (v : value)
  | Rating (v : value).

(** React renders numbers and non-empty strings; [undefined], [null] and
    booleans render nothing. *)
Definition rendersText (v : value) : bool :=
  match v with
  | VNum _ => true
  | VStr s => negb (String.eqb s "")
  | VUndefined | VNull | VBool _ => false
  end.

Definition visible (c : child) : bool :=
  match c with
  | Text v => rendersText v
  | Rating _ => true
  end.

(** One product of a card (source lines 132-168). *)
Record row := {
  rowKey : value;
  rowProduct : product;
  rowName : value;
  rowSold : value;
  rowStockIcon : icon * string;
  rowStock : value;
  rowRating : child;
  rowPrice : value
}.

Inductive cardBody :=
  | Rows (rows : list row)
  | NoResultsMessage (message : string).

(** A card (source lines 112-179). *)
Record card := {
  borderColor : string;
  headerIcon : icon * string;
  title : string;
  items : nat;
  body : cardBody
}.

Inductive chart :=
  | PieChart (pieData : list (string * nat))
  | NoDistribution (message : string).

Inductive view :=
  | Spinner
  | ErrorPanel (message : string)
  | NoAnalytics (message : string)
  | Dashboard (distribution : chart) (top low rated : card).

(** [getBorderColor] (source lines 86-93), of the card's [type]. *)
Definition getBorderColor (type : string) : string :=
  if String.eqb type "saleable" then "border-l-green-500"
  else if String.eqb type "non-saleable" then "border-l-orange-400"
  else if String.eqb type "rated" then "border-l-yellow-500"
  else "border-l-gray-300".

(** [getIconColor] (source lines 95-103). *)
Definition getIconColor (type : string) (hasStock : bool) : string :=
  if negb hasStock then "text-gray-400"
  else if String.eqb type "saleable" then "text-green-500"
  else if String.eqb type "non-saleable" then "text-orange-400"
  else if String.eqb type "rated" then "text-yellow-500"
  else "text-gray-400".

Section ProductCard.
Context `{Host}.

(** The row of a product in a card of type [type]. *)
Definition productRow (type : string) (product : product) : row :=
  {| rowKey := get product "id";
     rowProduct := product;
     rowName := get product "name";
     rowSold := Or (get product "total_units_sold") (VNum (Num 0));
     rowStockIcon :=
       if ToBoolean (Gt (get product "current_stock") (VNum (Num 0)))
       then (TrendingUp, "w-4 h-4 mr-1 " ++ getIconColor type true)
       else (TrendingDown, "w-4 h-4 mr-1 text-gray-400");
     rowStock := Or (get product "current_stock") (VNum (Num 0));
     rowRating :=
       if ToBoolean (get product "average_rating")
       then Rating (get product "average_rating")
       else Text (get product "average_rating");
     rowPrice := get product "price" |}.

(** The message of a card without products (source lines 171-175). *)
Definition noProductsMessage (type : string) : string :=
  "No " ++
  (if String.eqb type "saleable" then "top performing"
   else if String.eqb type "non-saleable" then "low performing"
   else "rated") ++
  " products yet".

(** [ProductCard] (source lines 85-180). *)
Definition ProductCard (title : string) (Icon : icon) (products : list product)
    (type : string) : card :=
  {| borderColor := getBorderColor type;
     headerIcon :=
       (if String.eqb type "saleable" then TrendingUp
        else if String.eqb type "non-saleable" then AlertTriangle
        else Icon,
        getIconColor type true);
     title := title;
     items := length products;
     body :=
       if Nat.ltb 0 (length products)
       then Rows (List.map (productRow type) products)
       else NoResultsMessage (noProductsMessage type) |}.

(** [pieData] (source lines 213-216). *)
Definition pieData (d : analyticsData (list product)) : list (string * nat) :=
  [("Saleable Products", saleableCount d);
   ("Non-Saleable Products", nonSaleableCount d)].

(** What is rendered once the state is neither loading nor in error
    (source lines 202-317). *)
Definition renderData (d : analyticsData (list product)) : view :=
  if Nat.eqb (length (topSaleableProducts d)) 0
     && Nat.eqb (length (nonSaleableProducts d)) 0
     && Nat.eqb (length (currentRatedProducts d)) 0
  then NoAnalytics "No analytics data available yet"
  else
    Dashboard
      (if existsb (fun item => Nat.ltb 0 (snd item)) (pieData d)
       then PieChart (pieData d)
       else NoDistribution "No product distribution data available")
      (ProductCard "Top Performing Products" TrendingUp
         (topSaleableProducts d) "saleable")
      (ProductCard "Low Performing Products" AlertTriangle
         (nonSaleableProducts d) "non-saleable")
      (ProductCard "Current Rated Products" Star
         (currentRatedProducts d) "rated").

(** The component's return value (source lines 182-317) for the state
    [d]: the spinner while loading, the error panel when [error] is a
    non-empty string, else the data. *)
Definition render (d : analyticsData (list product)) : view :=
  if loading d then Spinner
  else
    match error d with
    | Some message =>
        if negb (String.eqb message "") then ErrorPanel message else renderData d
    | None => renderData d
    end.

End ProductCard.

(** *** The selected product *)

(** [selectedProduct] and [isModalOpen] (source lines 27-28). *)
Record selection := {
  selectedProduct : option product;
  isModalOpen : bool
}.

Definition initialSelection : selection :=
  {| selectedProduct := None; isModalOpen := false |}.

(** The [onClick] of a row (source lines 135-138). *)
Definition rowClick (product : product) (s : selection) : selection :=
  {| selectedProduct := Some product; isModalOpen := true |}.

(** The [onClose] passed to [ProductDetails] (source lines 309-312). *)
Definition modalClose (s : selection) : selection :=
  {| selectedProduct := None; isModalOpen := false |}.

Definition cardRows (c : card) : list row :=
  match body c with
  | Rows rows => rows
  | NoResultsMessage _ => []
  end.

(** The rows a view offers to click. *)
Definition viewRows (v : view) : list row :=
  match v with
  | Dashboard _ top low rated => cardRows top ++ cardRows low ++ cardRows rated
  | _ => []
  end%list.

(** The selections that clicks on the rows of a view and closings of the
    dialog lead to.  Each handler sets both variables in one event. *)
Inductive reachable (v : view) : selection -> Prop :=
  | reach_initial : reachable v initialSelection
  | reach_click r s :
      reachable v s -> In r (viewRows v) -> reachable v (rowClick (rowProduct r) s)
  | reach_close s :
      reachable v s -> reachable v (modalClose s).

End Render.

(** ** Facts about the calendar and the ISO format *)

Module DateFacts.
Import JS.

(** Within an era, the year of the era and the day of that year. *)
Lemma year_of_era_bounds doe :
  0 <= doe < 146097 ->
  let yoe := (doe - doe / 1460 + doe / 36524 - doe / 146096) / 365 in
  0 <= yoe < 400 /\ 0 <= doe - (365 * yoe + yoe / 4 - yoe / 100) <= 365.
Proof. intros Hdoe yoe. subst yoe. Z.div_mod_to_equations. lia. Qed.

(** Within a year that starts on 1 March, the month and the day of it. *)
Lemma month_of_year_bounds doy :
  0 <= doy <= 365 ->
  let mp := (5 * doy + 2) / 153 in
  0 <= mp <= 11 /\ 1 <= doy - (153 * mp + 2) / 5 + 1 <= 31.
Proof. intros Hdoy mp. subst mp. Z.div_mod_to_equations. lia. Qed.

Lemma civil_of_doe_spec era doe y m d :
  0 <= doe < daysPerEra ->
  civil_of_doe era doe = (y, m, d) ->
  1 <= m <= 12 /\ 1 <= d <= 31 /\
  days_from_civil (y, m, d) = era * daysPerEra + doe - 719468 /\
  400 * era <= y <= 400 * era + 400.
Proof.
  unfold daysPerEra, civil_of_doe. intros Hdoe. cbv zeta.
  destruct (year_of_era_bounds doe Hdoe) as [Hyoe Hdoy]. cbv zeta in Hyoe, Hdoy.
  set (yoe := (doe - doe / 1460 + doe / 36524 - doe / 146096) / 365) in *.
  set (doy := doe - (365 * yoe + yoe / 4 - yoe / 100)) in *.
  destruct (month_of_year_bounds doy Hdoy) as [Hmp Hd]. cbv zeta in Hmp, Hd.
  set (mp := (5 * doy + 2) / 153) in *.
  intros E. injection E as <- <- <-.
  assert (Hm : (if Z.ltb mp 10 then mp + 3 else mp - 9) = mp + 3 /\ mp < 10 \/
               (if Z.ltb mp 10 then mp + 3 else mp - 9) = mp - 9 /\ 10 <= mp).
  { destruct (Z.ltb_spec mp 10); [left|right]; split; trivial. }
  set (m := if Z.ltb mp 10 then mp + 3 else mp - 9) in *.
  assert (Hadj : (if Z.leb m 2 then 1 else 0) = 1 /\ m <= 2 \/
                 (if Z.leb m 2 then 1 else 0) = 0 /\ 2 < m).
  { destruct (Z.leb_spec m 2); [left|right]; split; trivial. }
  set (adj := if Z.leb m 2 then 1 else 0) in *.
  split; [lia|]. split; [lia|]. split; [|lia].
  unfold days_from_civil, daysPerEra. fold adj.
  assert (Hback : (if Z.ltb 2 m then m - 3 else m + 9) = mp).
  { destruct (Z.ltb_spec 2 m); lia. }
  rewrite Hback.
  replace (yoe + era * 400 + adj - adj) with (yoe + era * 400) by lia.
  rewrite Z.div_add, Z.mod_add by discriminate.
  rewrite (Z.div_small yoe 400), (Z.mod_small yoe 400) by lia.
  fold doy. lia.
Qed.

Lemma civil_from_days_spec z y m d :
  civil_from_days z = (y, m, d) ->
  1 <= m <= 12 /\ 1 <= d <= 31 /\ days_from_civil (y, m, d) = z /\
  400 * ((z + 719468) / daysPerEra) <= y <= 400 * ((z + 719468) / daysPerEra) + 400.
Proof.
  unfold civil_from_days. cbv zeta. intros E.
  assert (Hdoe : 0 <= (z + 719468) mod daysPerEra < daysPerEra)
    by (apply Z.mod_pos_bound; reflexivity).
  destruct (civil_of_doe_spec _ _ _ _ _ Hdoe E) as (Hm & Hd & Hinv & Hy).
  repeat split; try lia.
  rewrite Hinv.
  pose proof (Z.div_mod (z + 719468) daysPerEra) as Hz. lia.
Qed.

Lemma civil_from_days_inj z z' :
  civil_from_days z = civil_from_days z' -> z = z'.
Proof.
  intros E.
  destruct (civil_from_days z) as [[y m] d] eqn:E1.
  symmetry in E.
  destruct (civil_from_days_spec _ _ _ _ E1) as (_ & _ & <- & _).
  destruct (civil_from_days_spec _ _ _ _ E) as (_ & _ & <- & _).
  reflexivity.
Qed.

(** [YearFromTime] is the year ECMA-262 defines: the last year that has
    started by [t]. *)
Lemma YearFromTime_DayFromYear t :
  DayFromYear (YearFromTime t) <= Day t < DayFromYear (YearFromTime t + 1).
Proof.
  unfold YearFromTime. generalize (Day t). intros z.
  unfold civil_from_days, civil_of_doe, daysPerEra. cbv zeta. cbn [fst snd].
  assert (Hdoe : 0 <= (z + 719468) mod 146097 < 146097)
    by (apply Z.mod_pos_bound; reflexivity).
  set (doe := (z + 719468) mod 146097) in *.
  destruct (year_of_era_bounds doe Hdoe) as [Hyoe Hdoy]. cbv zeta in Hyoe, Hdoy.
  set (yoe := (doe - doe / 1460 + doe / 36524 - doe / 146096) / 365) in *.
  set (doy := doe - (365 * yoe + yoe / 4 - yoe / 100)) in *.
  destruct (month_of_year_bounds doy Hdoy) as [Hmp Hd]. cbv zeta in Hmp, Hd.
  set (mp := (5 * doy + 2) / 153) in *.
  unfold DayFromYear.
  destruct (Z.ltb_spec mp 10) as [Hlt|Hge].
  - destruct (Z.leb_spec (mp + 3) 2); [lia|].
    subst doy mp yoe doe. Z.div_mod_to_equations. lia.
  - destruct (Z.leb_spec (mp - 9) 2); [|lia].
    subst doy mp yoe doe. Z.div_mod_to_equations. lia.
Qed.

(** The format at the epoch, at a recent time, before the epoch, in a leap
    year, and at the two ends of the range of time values. *)
Example toISOString_epoch :
  Date_toISOString (Num 0) = Normal "1970-01-01T00:00:00.000Z".
Proof. reflexivity. Qed.

Example toISOString_2024 :
  Date_toISOString (Num 1714557600000) = Normal "2024-05-01T10:00:00.000Z".
Proof. reflexivity. Qed.

Example toISOString_1969 :
  Date_toISOString (Num (-1)) = Normal "1969-12-31T23:59:59.999Z".
Proof. reflexivity. Qed.

Example toISOString_leap_day :
  Date_toISOString (Num 951782400000) = Normal "2000-02-29T00:00:00.000Z".
Proof. reflexivity. Qed.

Example toISOString_last :
  Date_toISOString (Num maxTime) = Normal "+275760-09-13T00:00:00.000Z".
Proof. reflexivity. Qed.

Example toISOString_first :
  Date_toISOString (Num (- maxTime)) = Normal "-271821-04-20T00:00:00.000Z".
Proof. reflexivity. Qed.

Example toISOString_invalid :
  Date_toISOString NaN = Throw (RangeError "Invalid time value").
Proof. reflexivity. Qed.

(** *** Strings of digits *)

#[local] Arguments String.append : simpl nomatch.

Lemma append_assoc' (a b c : string) : ((a ++ b) ++ c = a ++ (b ++ c))%string.
Proof. induction a as [|x a IH]; simpl; [reflexivity | now rewrite IH]. Qed.

Lemma append_cons (c : ascii) (a b : string) :
  (String c a ++ b = String c (a ++ b))%string.
Proof. reflexivity. Qed.

Lemma String_inj (c c' : ascii) (a a' : string) :
  String c a = String c' a' -> c = c' /\ a = a'.
Proof. intros E. now injection E. Qed.

Lemma append_length' (a b : string) :
  String.length (a ++ b) = (String.length a + String.length b)%nat.
Proof. induction a as [|x a IH]; simpl; [reflexivity | now rewrite IH]. Qed.

Lemma append_inj (a a' b b' : string) :
  String.length a = String.length a' ->
  (a ++ b = a' ++ b')%string -> a = a' /\ b = b'.
Proof.
  revert a'. induction a as [|x a IH]; intros [|x' a'] Hlen E; simpl in *;
    try discriminate.
  - split; [reflexivity | assumption].
  - injection E as -> E. injection Hlen as Hlen.
    destruct (IH a' Hlen E) as [-> ->]. split; reflexivity.
Qed.

Lemma digit_value_char d : 0 <= d < 10 -> digit_value (digit_char d) = d.
Proof.
  intros Hd.
  assert (Hcases : d = 0 \/ d = 1 \/ d = 2 \/ d = 3 \/ d = 4 \/
                   d = 5 \/ d = 6 \/ d = 7 \/ d = 8 \/ d = 9) by lia.
  repeat (destruct Hcases as [-> | Hcases]; [reflexivity|]).
  subst d. reflexivity.
Qed.

Lemma digit_char_is_digit d : is_digit (digit_char d) = true.
Proof.
  unfold digit_char.
  repeat match goal with
         | |- context [match ?x with _ => _ end] => destruct x
         end; reflexivity.
Qed.

Lemma digit_char_inj d d' :
  0 <= d < 10 -> 0 <= d' < 10 -> digit_char d = digit_char d' -> d = d'.
Proof.
  intros Hd Hd' E.
  rewrite <- (digit_value_char d Hd), <- (digit_value_char d' Hd'). now rewrite E.
Qed.

Lemma pad_digits_app w : forall n acc,
  pad_digits w n acc = (pad_digits w n "" ++ acc)%string.
Proof.
  induction w as [|w IH]; intros n acc; [reflexivity|].
  cbn [pad_digits].
  rewrite (IH (n / 10) (String _ acc)), (IH (n / 10) (String _ "")).
  rewrite append_assoc'. reflexivity.
Qed.

Lemma pad_digits_length w : forall n, String.length (pad_digits w n "") = w.
Proof.
  induction w as [|w IH]; intros n; simpl; [reflexivity|].
  rewrite pad_digits_app, append_length', IH. simpl. lia.
Qed.

Lemma pad_digits_inj w : forall n n',
  0 <= n < 10 ^ Z.of_nat w -> 0 <= n' < 10 ^ Z.of_nat w ->
  pad_digits w n "" = pad_digits w n' "" -> n = n'.
Proof.
  induction w as [|w IH]; intros n n' Hn Hn' E.
  - simpl in Hn, Hn'. lia.
  - rewrite Nat2Z.inj_succ, Z.pow_succ_r in Hn, Hn' by lia.
    simpl in E.
    rewrite (pad_digits_app w (n / 10)), (pad_digits_app w (n' / 10)) in E.
    apply append_inj in E; [|now rewrite !pad_digits_length].
    destruct E as [Ehigh Elow]. apply String_inj in Elow as [Elow _].
    apply digit_char_inj in Elow; try (apply Z.mod_pos_bound; lia).
    apply IH in Ehigh; try (split; [apply Z.div_pos; lia | apply Z.div_lt_upper_bound; lia]).
    rewrite (Z.div_mod n 10), (Z.div_mod n' 10) by lia. congruence.
Qed.

Lemma all_chars_app P (a b : string) :
  all_chars P (a ++ b) = all_chars P a && all_chars P b.
Proof. induction a as [|x a IH]; simpl; [reflexivity | now rewrite IH, andb_assoc]. Qed.

Lemma all_chars_pad_digits P w : forall n acc,
  (forall d, P (digit_char d) = true) ->
  all_chars P (pad_digits w n acc) = all_chars P acc.
Proof.
  induction w as [|w IH]; intros n acc HP; simpl; [reflexivity|].
  rewrite IH by assumption. simpl. now rewrite HP.
Qed.

Lemma split_head_app sep (a r : string) :
  all_chars (fun c => negb (Ascii.eqb c sep)) a = true ->
  split_head sep (a ++ String sep r) = a.
Proof.
  induction a as [|x a IH]; simpl.
  - now rewrite Ascii.eqb_refl.
  - intros Hall. apply andb_true_iff in Hall as [Hx Hall].
    apply negb_true_iff in Hx. rewrite Hx, IH by assumption. reflexivity.
Qed.

Lemma digit_char_not_T d : negb (Ascii.eqb (digit_char d) "T") = true.
Proof.
  unfold digit_char.
  repeat match goal with
         | |- context [match ?x with _ => _ end] => destruct x
         end; reflexivity.
Qed.

Lemma year_string_no_T y :
  all_chars (fun c => negb (Ascii.eqb c "T")) (year_string y) = true.
Proof.
  unfold year_string.
  destruct (Z.leb 0 y && Z.leb y 9999).
  - now rewrite all_chars_pad_digits by apply digit_char_not_T.
  - cbn [all_chars]. rewrite all_chars_pad_digits by apply digit_char_not_T.
    now destruct (Z.ltb y 0).
Qed.

Lemma date_string_no_T y m d :
  all_chars (fun c => negb (Ascii.eqb c "T")) (date_string y m d) = true.
Proof.
  unfold date_string. rewrite all_chars_app, year_string_no_T.
  cbn [all_chars andb]. rewrite all_chars_pad_digits by apply digit_char_not_T.
  cbn [all_chars andb]. rewrite all_chars_pad_digits by apply digit_char_not_T.
  reflexivity.
Qed.

(** The part of an ISO string before the [T] is the date. *)
Lemma split_head_ISOString t :
  split_head "T" (iso_date t ++ String "T" (iso_time t)) = iso_date t.
Proof. apply split_head_app, date_string_no_T. Qed.

(** The date depends on the day only. *)
Lemma iso_date_same_day t t' : Day t = Day t' -> iso_date t = iso_date t'.
Proof.
  intros E. unfold iso_date, YearFromTime, MonthFromTime, DateFromTime.
  now rewrite E.
Qed.

Lemma year_string_first_digit y :
  0 <= y <= 9999 -> exists c rest, year_string y = String c rest /\ is_digit c = true.
Proof.
  intros Hy. unfold year_string.
  destruct (Z.leb_spec 0 y); [|lia]. destruct (Z.leb_spec y 9999); [|lia].
  cbn [andb pad_digits]. eexists _, _. split; [reflexivity|apply digit_char_is_digit].
Qed.

Lemma year_string_inj y y' (r r' : string) :
  -999999 <= y <= 999999 -> -999999 <= y' <= 999999 ->
  (year_string y ++ r = year_string y' ++ r')%string -> y = y' /\ r = r'.
Proof.
  intros Hy Hy' E.
  destruct (Z.leb 0 y && Z.leb y 9999) eqn:Hs; destruct (Z.leb 0 y' && Z.leb y' 9999) eqn:Hs'.
  - unfold year_string in E. rewrite Hs, Hs' in E.
    apply andb_true_iff in Hs as [?%Z.leb_le ?%Z.leb_le].
    apply andb_true_iff in Hs' as [?%Z.leb_le ?%Z.leb_le].
    apply append_inj in E as [E ->]; [|now rewrite !pad_digits_length].
    apply pad_digits_inj in E; [now split | simpl; lia | simpl; lia].
  - exfalso.
    apply andb_true_iff in Hs as [?%Z.leb_le ?%Z.leb_le].
    destruct (year_string_first_digit y) as (c & rest & Ey & Hc); [lia|].
    rewrite Ey in E. unfold year_string in E. rewrite Hs' in E.
    rewrite !append_cons in E. apply String_inj in E as [-> _].
    now destruct (Z.ltb y' 0).
  - exfalso.
    apply andb_true_iff in Hs' as [?%Z.leb_le ?%Z.leb_le].
    destruct (year_string_first_digit y') as (c & rest & Ey & Hc); [lia|].
    rewrite Ey in E. unfold year_string in E. rewrite Hs in E.
    rewrite !append_cons in E. apply String_inj in E as [<- _].
    now destruct (Z.ltb y 0).
  - unfold year_string in E. rewrite Hs, Hs' in E.
    rewrite !append_cons in E. apply String_inj in E as [Esign E].
    apply append_inj in E as [E ->]; [|now rewrite !pad_digits_length].
    apply pad_digits_inj in E; [| simpl; lia | simpl; lia].
    split; [|reflexivity].
    destruct (Z.ltb_spec y 0), (Z.ltb_spec y' 0); try discriminate; lia.
Qed.

Lemma date_string_inj y m d y' m' d' :
  -999999 <= y <= 999999 -> 1 <= m <= 12 -> 1 <= d <= 31 ->
  -999999 <= y' <= 999999 -> 1 <= m' <= 12 -> 1 <= d' <= 31 ->
  date_string y m d = date_string y' m' d' -> (y, m, d) = (y', m', d').
Proof.
  intros Hy Hm Hd Hy' Hm' Hd' E. unfold date_string in E.
  apply year_string_inj in E as [-> E]; [|lia|lia].
  apply String_inj in E as [_ E].
  rewrite (pad_digits_app 2 m), (pad_digits_app 2 m') in E.
  apply append_inj in E as [Em E]; [|now rewrite !pad_digits_length].
  apply pad_digits_inj in Em; [| simpl; lia | simpl; lia].
  apply String_inj in E as [_ E].
  apply pad_digits_inj in E; [| simpl; lia | simpl; lia].
  congruence.
Qed.

Lemma valid_day_bounds t : time_valid t -> -100000000 <= Day t <= 100000000.
Proof.
  unfold time_valid, maxTime, Day, msPerDay. intros Ht.
  split; [apply Z.div_le_lower_bound | apply Z.div_le_upper_bound]; lia.
Qed.

(** Two times in the range of Date objects with the same ISO date fall on
    the same day. *)
Lemma iso_date_inj t t' :
  time_valid t -> time_valid t' -> iso_date t = iso_date t' -> Day t = Day t'.
Proof.
  intros Ht Ht' E.
  apply valid_day_bounds in Ht, Ht'.
  unfold iso_date, YearFromTime, MonthFromTime, DateFromTime in E.
  apply civil_from_days_inj.
  destruct (civil_from_days (Day t)) as [[y m] d] eqn:E1.
  destruct (civil_from_days (Day t')) as [[y' m'] d'] eqn:E2.
  destruct (civil_from_days_spec _ _ _ _ E1) as (Hm & Hd & _ & Hy).
  destruct (civil_from_days_spec _ _ _ _ E2) as (Hm' & Hd' & _ & Hy').
  cbn [fst snd] in E. rewrite !Z.sub_add in E.
  unfold daysPerEra in Hy, Hy'.
  apply date_string_inj in E; try assumption.
  - split; Z.div_mod_to_equations; lia.
  - split; Z.div_mod_to_equations; lia.
Qed.

End DateFacts.

(** ** Facts about the array operations *)

Module StoreFacts.
Import JS Store.

Lemma filter_elems_pure (f : product -> value) (xs : list product) :
  filter_elems (fun x => mret (f x)) xs =
  Normal (List.filter (fun x => ToBoolean (f x)) xs).
Proof.
  induction xs as [|x xs IH]; [reflexivity|].
  cbn [filter_elems List.filter]. rewrite IH. reflexivity.
Qed.

(** A callback that either answers with a boolean or throws [e]: the filter
    throws as soon as one element makes the callback throw. *)
Lemma filter_elems_guarded (ok r : product -> bool) (e : exn)
    (callback : product -> completion value) (xs : list product) :
  (forall x, callback x = if ok x then Normal (VBool (r x)) else Throw e) ->
  filter_elems callback xs =
  if forallb ok xs then Normal (List.filter r xs) else Throw e.
Proof.
  intros Hcb. induction xs as [|x xs IH]; [reflexivity|].
  cbn [filter_elems forallb List.filter]. rewrite Hcb.
  destruct (ok x); [|reflexivity].
  rewrite IH. cbn. destruct (forallb ok xs); reflexivity.
Qed.

Section sorting.
Context `{Host}.
Variable comparefn : product -> product -> value.

Lemma sort_insert_perm x s : Permutation (x :: s) (sort_insert comparefn x s).
Proof.
  induction s as [|y s IH]; cbn [sort_insert]; [reflexivity|].
  destruct (gt _ _); [|reflexivity].
  rewrite perm_swap. now apply perm_skip.
Qed.

Lemma sort_elems_perm xs : Permutation xs (sort_elems comparefn xs).
Proof.
  induction xs as [|x xs IH]; cbn [sort_elems]; [reflexivity|].
  rewrite <- sort_insert_perm. now apply perm_skip.
Qed.

Lemma sort_elems_length xs : length (sort_elems comparefn xs) = length xs.
Proof. symmetry. apply Permutation_length, sort_elems_perm. Qed.

Lemma sort_elems_In x xs : In x (sort_elems comparefn xs) <-> In x xs.
Proof.
  split; apply Permutation_in; [symmetry|]; apply sort_elems_perm.
Qed.

Lemma sort_elems_Forall (P : product -> Prop) xs :
  Forall P xs -> Forall P (sort_elems comparefn xs).
Proof.
  rewrite !List.Forall_forall. intros HP x Hx. apply HP, sort_elems_In, Hx.
Qed.

End sorting.
End StoreFacts.

(** ** The classification *)

Module AnalyticsFacts.
Import JS Store Analytics StoreFacts DateFacts.

Section facts.
Context `{Host}.

(** *** The filters in terms of the number of units sold *)

Lemma isSaleable_units p :
  ToBoolean (isSaleable p) = true <-> exists z, units_sold p = Num z /\ 20 < z.
Proof.
  unfold isSaleable, Gt, units_sold. cbn [ToNumber].
  destruct (ToNumber (get p "total_units_sold")) as [|z]; cbn [ToBoolean gt lt].
  - split; [discriminate | intros (z & Hz & _); discriminate].
  - rewrite Z.ltb_lt. split.
    + intros Hz. exists z. split; [reflexivity | assumption].
    + intros (z' & Hz' & Hlt). injection Hz' as ->. assumption.
Qed.

Lemma isNonSaleable_units p :
  ToBoolean (isNonSaleable p) = true <-> exists z, units_sold p = Num z /\ 0 < z < 3.
Proof.
  unfold isNonSaleable, And, Lt, Gt, units_sold. cbn [ToNumber].
  destruct (ToNumber (get p "total_units_sold")) as [|z]; cbn [ToBoolean gt lt].
  - split; [discriminate | intros (z & Hz & _); discriminate].
  - destruct (Z.ltb_spec z 3) as [H3|H3]; cbn [ToBoolean].
    + rewrite Z.ltb_lt. split.
      * intros Hz. exists z. split; [reflexivity | lia].
      * intros (z' & Hz' & Hlt). injection Hz' as ->. lia.
    + split; [discriminate|]. intros (z' & Hz' & Hlt). injection Hz' as ->. lia.
Qed.

Lemma saleable_counted xs :
  Forall counted (List.filter (fun p => ToBoolean (isSaleable p)) xs).
Proof.
  apply List.Forall_forall. intros p [_ Hp]%filter_In.
  apply isSaleable_units in Hp as (z & Hz & _). now exists z.
Qed.

Lemma nonSaleable_counted xs :
  Forall counted (List.filter (fun p => ToBoolean (isNonSaleable p)) xs).
Proof.
  apply List.Forall_forall. intros p [_ Hp]%filter_In.
  apply isNonSaleable_units in Hp as (z & Hz & _). now exists z.
Qed.

(** *** The sort by units sold *)

(** On records whose units sold are numbers, [x] goes behind [y] exactly
    when it sold less. *)
Lemma byUnitsSoldDesc_after x y a b :
  units_sold x = Num a -> units_sold y = Num b ->
  gt (SortCompare byUnitsSoldDesc x y) (Num 0) = Z.ltb a b.
Proof.
  unfold units_sold, SortCompare, byUnitsSoldDesc, Sub. cbn [ToNumber].
  intros -> ->. cbn [sub gt lt].
  destruct (Z.ltb_spec 0 (b - a)), (Z.ltb_spec a b); try reflexivity; lia.
Qed.

Lemma sort_insert_descending x s :
  counted x -> Forall counted s -> descending s ->
  descending (sort_insert byUnitsSoldDesc x s).
Proof.
  intros [a Ha] Hs Hsorted. unfold descending in *.
  induction Hsorted as [|y s Hsorted IH Hy]; cbn [sort_insert].
  - repeat constructor.
  - apply Forall_cons_1 in Hs as [[b Hb] Hs].
    rewrite (byUnitsSoldDesc_after x y a b Ha Hb).
    destruct (Z.ltb_spec a b) as [Hlt|Hge].
    + constructor; [now apply IH|].
      eapply Permutation_Forall; [apply sort_insert_perm|].
      constructor; [|assumption]. exists b, a. repeat split; trivial; lia.
    + constructor; [now constructor|].
      constructor; [exists a, b; repeat split; trivial|].
      eapply List.Forall_impl; [|exact Hy].
      intros z (b' & c & Hb' & Hc & Hle). exists a, c.
      rewrite Hb in Hb'. injection Hb' as <-. repeat split; trivial; lia.
Qed.

Lemma sort_elems_descending xs :
  Forall counted xs -> descending (sort_elems byUnitsSoldDesc xs).
Proof.
  induction xs as [|x xs IH]; intros Hxs; cbn [sort_elems].
  - constructor.
  - apply Forall_cons_1 in Hxs as [Hx Hxs].
    apply sort_insert_descending; [assumption | now apply sort_elems_Forall | now apply IH].
Qed.

Lemma sort_insert_same_order k x s :
  counted x -> Forall counted s ->
  List.filter (fun p => bool_decide (units_sold p = k)) (sort_insert byUnitsSoldDesc x s) =
  List.filter (fun p => bool_decide (units_sold p = k)) (x :: s).
Proof.
  intros [a Ha] Hs. induction s as [|y s IH]; cbn [sort_insert]; [reflexivity|].
  apply Forall_cons_1 in Hs as [[b Hb] Hs].
  rewrite (byUnitsSoldDesc_after x y a b Ha Hb).
  destruct (Z.ltb_spec a b) as [Hlt|Hge]; [|reflexivity].
  cbn [List.filter] in *. rewrite (IH Hs).
  repeat case_bool_decide; try reflexivity.
  exfalso. assert (Num a = Num b) as [= ->] by congruence. lia.
Qed.

Lemma sort_elems_same_order xs :
  Forall counted xs -> same_order_per_units xs (sort_elems byUnitsSoldDesc xs).
Proof.
  intros Hxs k. induction xs as [|x xs IH]; cbn [sort_elems]; [reflexivity|].
  apply Forall_cons_1 in Hxs as [Hx Hxs].
  rewrite sort_insert_same_order by (trivial; now apply sort_elems_Forall).
  cbn [List.filter]. now rewrite IH.
Qed.

(** The sort computes a stable descending sort. *)
Lemma sort_elems_stable_descending xs :
  Forall counted xs -> stable_descending_sort xs (sort_elems byUnitsSoldDesc xs).
Proof.
  intros Hxs. split; [apply sort_elems_perm|].
  split; [now apply sort_elems_descending | now apply sort_elems_same_order].
Qed.

(** Two descending lists that keep, for every number of units sold, the
    same records in the same order are equal: a stable descending sort has
    one result. *)
Lemma stable_descending_unique s1 : forall s2,
  descending s1 -> descending s2 ->
  (forall k : number,
     List.filter (fun p => bool_decide (units_sold p = k)) s1 =
     List.filter (fun p => bool_decide (units_sold p = k)) s2) ->
  s1 = s2.
Proof.
  unfold descending.
  induction s1 as [|a s1 IH]; intros [|b s2] H1 H2 Hk.
  - reflexivity.
  - specialize (Hk (units_sold b)). cbn [List.filter] in Hk.
    rewrite bool_decide_eq_true_2 in Hk by reflexivity. discriminate.
  - specialize (Hk (units_sold a)). cbn [List.filter] in Hk.
    rewrite bool_decide_eq_true_2 in Hk by reflexivity. discriminate.
  - apply StronglySorted_inv in H1 as [H1 Ha]. apply StronglySorted_inv in H2 as [H2 Hb].
    assert (Hunits : units_sold a = units_sold b).
    { destruct (decide (units_sold a = units_sold b)) as [|Hne]; [assumption|exfalso].
      pose proof (Hk (units_sold a)) as Hka. pose proof (Hk (units_sold b)) as Hkb.
      cbn [List.filter] in Hka, Hkb.
      rewrite (bool_decide_eq_true_2 (units_sold a = units_sold a)) in Hka by reflexivity.
      rewrite (bool_decide_eq_true_2 (units_sold b = units_sold b)) in Hkb by reflexivity.
      rewrite (bool_decide_eq_false_2 (units_sold b = units_sold a)) in Hka by congruence.
      rewrite (bool_decide_eq_false_2 (units_sold a = units_sold b)) in Hkb by congruence.
      assert (Hin_a : In a s2).
      { eapply (proj1 (filter_In _ a s2)). rewrite <- Hka. now left. }
      assert (Hin_b : In b s1).
      { eapply (proj1 (filter_In _ b s1)). rewrite Hkb. now left. }
      rewrite List.Forall_forall in Ha, Hb.
      destruct (Ha b Hin_b) as (x & y & Hx & Hy & Hle).
      destruct (Hb a Hin_a) as (x' & y' & Hx' & Hy' & Hle').
      rewrite Hx in Hy'. rewrite Hy in Hx'.
      injection Hy' as <-. injection Hx' as <-.
      apply Hne. rewrite Hx, Hy. f_equal. lia. }
    assert (a = b) as <-.
    { specialize (Hk (units_sold a)). cbn [List.filter] in Hk.
      rewrite (bool_decide_eq_true_2 (units_sold a = units_sold a)) in Hk by reflexivity.
      rewrite (bool_decide_eq_true_2 (units_sold b = units_sold a)) in Hk by congruence.
      now injection Hk. }
    f_equal. apply IH; trivial.
    intros k. specialize (Hk k). cbn [List.filter] in Hk.
    destruct (bool_decide (units_sold a = k)); [now injection Hk | assumption].
Qed.

Lemma stable_descending_sort_unique l s :
  Forall counted l -> stable_descending_sort l s -> s = sort_elems byUnitsSoldDesc l.
Proof.
  intros Hl (_ & Hdesc & Hsame).
  apply stable_descending_unique; [assumption | now apply sort_elems_descending |].
  intros k. rewrite (Hsame k). symmetry. now apply sort_elems_same_order.
Qed.

(** *** The run of the classification *)

Lemma todayString_eq now : todayString now = Normal (iso_date now).
Proof.
  unfold todayString. cbn [Date_toISOString mbind completion_bind mret completion_ret].
  now rewrite split_head_ISOString.
Qed.

Lemma TimeClip_valid n t : TimeClip n = Num t -> time_valid t.
Proof.
  unfold TimeClip, time_valid. destruct n as [|z]; [discriminate|].
  destruct (Z.ltb_spec maxTime (Z.abs z)); [discriminate|].
  intros [= <-]. lia.
Qed.

Lemma Date_new_valid v t : Date_new v = Num t -> time_valid t.
Proof. unfold Date_new. destruct v; apply TimeClip_valid. Qed.

(** The callback of the third filter answers for a record whose rating date
    is well formed and throws for any other record. *)
Lemma isRatedToday_eq today p :
  isRatedToday today p =
  if rating_date_ok p then Normal (VBool (rated_on_date today p))
  else Throw (RangeError "Invalid time value").
Proof.
  unfold isRatedToday, rating_date_ok, rated_on_date, rating_time.
  destruct (ToBoolean (get p "latest_rating_date")); cbn [negb orb].
  - destruct (Date_new (get p "latest_rating_date")) as [|t];
      cbn [Date_toISOString mbind completion_bind mret completion_ret]; [reflexivity|].
    now rewrite split_head_ISOString.
  - reflexivity.
Qed.

Lemma filter_rated_eq today records :
  filter_elems (isRatedToday today) records =
  if forallb rating_date_ok records
  then Normal (List.filter (rated_on_date today) records)
  else Throw (RangeError "Invalid time value").
Proof. apply filter_elems_guarded, isRatedToday_eq. Qed.

(** The store and the state at the end of a run.  The decoded array stays
    at location 0; the two filtered arrays are sorted where they are. *)
Lemma run_eq now records :
  let saleable := List.filter (fun p => ToBoolean (isSaleable p)) records in
  let low := List.filter (fun p => ToBoolean (isNonSaleable p)) records in
  run now records =
  if forallb rating_date_ok records
  then (Normal {| topSaleableProducts := 4%nat;
                  nonSaleableProducts := 5%nat;
                  currentRatedProducts := 3%nat;
                  loading := false;
                  error := None;
                  saleableCount := length (sort_elems byUnitsSoldDesc saleable);
                  nonSaleableCount := length (sort_elems byUnitsSoldDesc low) |},
        [records;
         sort_elems byUnitsSoldDesc saleable;
         sort_elems byUnitsSoldDesc low;
         List.filter (rated_on_date (iso_date now)) records;
         List.firstn 10 (sort_elems byUnitsSoldDesc saleable);
         List.firstn 10 (sort_elems byUnitsSoldDesc low)])
  else (Throw (RangeError "Invalid time value"),
        [records; saleable; sort_elems byUnitsSoldDesc low]).
Proof.
  intros saleable low. unfold run, classification, Array_filter, Array_sort.
  unfold mbind, M_bind, read, lift, alloc, write, mret, M_ret.
  cbn -[filter_elems sort_elems todayString].
  rewrite !filter_elems_pure, todayString_eq, filter_rated_eq.
  fold saleable low.
  cbn -[sort_elems List.filter forallb iso_date List.firstn].
  destruct (forallb rating_date_ok records); reflexivity.
Qed.

Lemma classify_eq now records :
  let saleable := List.filter (fun p => ToBoolean (isSaleable p)) records in
  let low := List.filter (fun p => ToBoolean (isNonSaleable p)) records in
  classify now records =
  if forallb rating_date_ok records
  then Normal {| topSaleableProducts := List.firstn 10 (sort_elems byUnitsSoldDesc saleable);
                 nonSaleableProducts := List.firstn 10 (sort_elems byUnitsSoldDesc low);
                 currentRatedProducts := List.filter (rated_on_date (iso_date now)) records;
                 loading := false;
                 error := None;
                 saleableCount := length (sort_elems byUnitsSoldDesc saleable);
                 nonSaleableCount := length (sort_elems byUnitsSoldDesc low) |}
  else Throw (RangeError "Invalid time value").
Proof.
  intros saleable low. unfold classify. rewrite run_eq. fold saleable low.
  destruct (forallb rating_date_ok records); reflexivity.
Qed.

Lemma isSaleable_sold_over p : ToBoolean (isSaleable p) = sold_over 20 p.
Proof.
  unfold isSaleable, Gt, sold_over, units_sold. cbn [ToNumber].
  now destruct (ToNumber (get p "total_units_sold")).
Qed.

Lemma isNonSaleable_sold_within p : ToBoolean (isNonSaleable p) = sold_within 0 3 p.
Proof.
  unfold isNonSaleable, And, Lt, Gt, sold_within, units_sold. cbn [ToNumber].
  destruct (ToNumber (get p "total_units_sold")) as [|z]; cbn [ToBoolean gt lt]; [reflexivity|].
  destruct (Z.ltb z 3), (Z.ltb 0 z); reflexivity.
Qed.

Lemma saleable_filter records :
  List.filter (fun p => ToBoolean (isSaleable p)) records = List.filter (sold_over 20) records.
Proof. apply List.filter_ext, isSaleable_sold_over. Qed.

Lemma nonSaleable_filter records :
  List.filter (fun p => ToBoolean (isNonSaleable p)) records =
  List.filter (sold_within 0 3) records.
Proof. apply List.filter_ext, isNonSaleable_sold_within. Qed.

Lemma sold_over_counted n xs : Forall counted (List.filter (sold_over n) xs).
Proof.
  apply List.Forall_forall. intros p [_ Hp]%filter_In. unfold sold_over in Hp.
  destruct (units_sold p) as [|z] eqn:E; [discriminate|]. now exists z.
Qed.

Lemma sold_within_counted lo hi xs : Forall counted (List.filter (sold_within lo hi) xs).
Proof.
  apply List.Forall_forall. intros p [_ Hp]%filter_In. unfold sold_within in Hp.
  destruct (units_sold p) as [|z] eqn:E; [discriminate|]. now exists z.
Qed.

(** The classification returns exactly on the inputs whose rating dates
    are well formed. *)
Lemma classify_Normal_iff now records :
  (exists d, classify now records = Normal d) <-> well_dated records.
Proof.
  rewrite classify_eq. cbv zeta. unfold well_dated.
  destruct (forallb rating_date_ok records).
  - split; [reflexivity | intros _; eexists; reflexivity].
  - split; [intros [d Hd]; discriminate | discriminate].
Qed.

(** The classification of well-dated records, with the filters in the
    vocabulary of the specification. *)
Lemma classify_well_dated now records :
  well_dated records ->
  classify now records =
  Normal {| topSaleableProducts :=
              List.firstn 10 (sort_elems byUnitsSoldDesc (List.filter (sold_over 20) records));
            nonSaleableProducts :=
              List.firstn 10 (sort_elems byUnitsSoldDesc (List.filter (sold_within 0 3) records));
            currentRatedProducts := List.filter (rated_on_date (iso_date now)) records;
            loading := false;
            error := None;
            saleableCount := length (List.filter (sold_over 20) records);
            nonSaleableCount := length (List.filter (sold_within 0 3) records) |}.
Proof.
  intros Hwd. rewrite classify_eq. cbv zeta. unfold well_dated in Hwd. rewrite Hwd.
  rewrite !sort_elems_length, saleable_filter, nonSaleable_filter. reflexivity.
Qed.

(** *** Prefixes *)

Lemma firstn_In {A} n (l : list A) x : In x (List.firstn n l) -> In x l.
Proof.
  intros Hx. rewrite <- (firstn_skipn n l). apply in_or_app. now left.
Qed.

Lemma firstn_Forall {A} (P : A -> Prop) n (l : list A) :
  Forall P l -> Forall P (List.firstn n l).
Proof.
  rewrite !List.Forall_forall. intros HP x Hx. eapply HP, firstn_In, Hx.
Qed.

Lemma firstn_StronglySorted {A} (R : A -> A -> Prop) (l : list A) :
  StronglySorted R l -> forall n, StronglySorted R (List.firstn n l).
Proof.
  induction 1 as [|a l Hl IH Ha]; intros [|n]; cbn [List.firstn]; try constructor.
  - apply IH.
  - now apply firstn_Forall.
Qed.

Lemma filter_firstn_prefix {A} (P : A -> bool) n (l : list A) :
  List.filter P l = (List.filter P (List.firstn n l) ++ List.filter P (List.skipn n l))%list.
Proof. now rewrite <- List.filter_app, firstn_skipn. Qed.

Lemma filter_sublist {A} (P : A -> bool) (l : list A) : sublist (List.filter P l) l.
Proof.
  induction l as [|x l IH]; cbn [List.filter]; [constructor|].
  destruct (P x); now constructor.
Qed.

Lemma firstn_sort_filter_submseteq (P : product -> bool) n records :
  List.firstn n (sort_elems byUnitsSoldDesc (List.filter P records)) ⊆+ records.
Proof.
  etransitivity; [apply sublist_submseteq, sublist_take|].
  etransitivity; [apply Permutation_submseteq; symmetry; apply sort_elems_perm|].
  apply sublist_submseteq, filter_sublist.
Qed.

(** Selecting by units sold after a filter that looks at the units sold
    only. *)
Lemma filter_units_of_filter (f : number -> bool) k (l : list product) :
  List.filter (fun p => bool_decide (units_sold p = k))
    (List.filter (fun p => f (units_sold p)) l) =
  if f k then List.filter (fun p => bool_decide (units_sold p = k)) l else [].
Proof.
  induction l as [|x l IH]; cbn [List.filter]; [now destruct (f k)|].
  destruct (f (units_sold x)) eqn:Ex; cbn [List.filter]; rewrite IH.
  - case_bool_decide as Hk; [|reflexivity]. subst k. now rewrite Ex.
  - case_bool_decide as Hk; [|reflexivity]. subst k. now rewrite Ex.
Qed.

(** The records of a truncated sorted filter that sold [k] units are the
    first such records of the input, in the order of the input. *)
Lemma firstn_sort_filter_order (f : number -> bool) n k records :
  (forall p, f (units_sold p) = true -> counted p) ->
  exists rest,
    List.filter (fun p => bool_decide (units_sold p = k)) records =
    (List.filter (fun p => bool_decide (units_sold p = k))
       (List.firstn n (sort_elems byUnitsSoldDesc
          (List.filter (fun p => f (units_sold p)) records))) ++ rest)%list.
Proof.
  intros Hf.
  set (kept := List.filter (fun p => f (units_sold p)) records).
  assert (Hkept : Forall counted kept).
  { apply List.Forall_forall. intros p [_ Hp]%filter_In. now apply Hf. }
  pose proof (sort_elems_same_order kept Hkept k) as Hsame.
  unfold kept in Hsame at 2. rewrite filter_units_of_filter in Hsame.
  rewrite (filter_firstn_prefix _ n (sort_elems _ _)) in Hsame.
  destruct (f k).
  - eexists. symmetry. exact Hsame.
  - apply app_eq_nil in Hsame as [-> _]. eexists. reflexivity.
Qed.

(** *** Dates *)

Lemma rating_time_valid p t : rating_time p = Some t -> time_valid t.
Proof.
  unfold rating_time. destruct (ToBoolean _); [|discriminate].
  destruct (Date_new _) as [|t'] eqn:E; [discriminate|].
  intros [= <-]. eapply Date_new_valid, E.
Qed.

(** Comparing ISO dates is comparing UTC days. *)
Lemma rated_on_date_day now p :
  time_valid now -> rated_on_date (iso_date now) p = rated_on (Day now) p.
Proof.
  intros Hnow. unfold rated_on_date, rated_on.
  destruct (rating_time p) as [t|] eqn:E; [|reflexivity].
  apply rating_time_valid in E.
  destruct (String.eqb_spec (iso_date t) (iso_date now)) as [Hs|Hs];
    destruct (Z.eqb_spec (Day t) (Day now)) as [Hd|Hd]; try reflexivity.
  - exfalso. now apply Hd, iso_date_inj.
  - exfalso. now apply Hs, iso_date_same_day.
Qed.

(** *** The classified lists *)

(** C1. For every input whose rating dates are well formed, the
    classification returns, and [topSaleableProducts] is the first ten
    elements of the stable descending sort, by units sold, of the records
    that sold more than 20 units: it equals the first ten elements of every
    list that is such a sort, and there is one.  It has at most ten
    elements, each of which sold more than 20 units. *)
Theorem topSaleableProducts_top_ten now records :
  well_dated records ->
  exists d, classify now records = Normal d /\
    (forall s, stable_descending_sort (List.filter (sold_over 20) records) s ->
               topSaleableProducts d = List.firstn 10 s) /\
    (exists s, stable_descending_sort (List.filter (sold_over 20) records) s /\
               topSaleableProducts d = List.firstn 10 s) /\
    (length (topSaleableProducts d) <= 10)%nat /\
    Forall (fun p => exists z, units_sold p = Num z /\ 20 < z) (topSaleableProducts d).
Proof.
  intros Hwd. eexists. split; [now apply classify_well_dated|].
  cbn [topSaleableProducts].
  pose proof (sold_over_counted 20 records) as Hcounted.
  split; [|split; [|split]].
  - intros s Hs. f_equal. symmetry. now apply stable_descending_sort_unique.
  - eexists. split; [now apply sort_elems_stable_descending | reflexivity].
  - apply firstn_le_length.
  - apply firstn_Forall, sort_elems_Forall, List.Forall_forall.
    intros p [_ Hp]%filter_In. apply isSaleable_units. now rewrite isSaleable_sold_over.
Qed.

(** C3. For every input whose rating dates are well formed, [saleableCount]
    is the number of records that sold more than 20 units and
    [nonSaleableCount] the number of records that sold more than 0 and less
    than 3 units, both counted before the lists are cut to ten;
    [topSaleableProducts] is not longer than [saleableCount], and as long
    exactly when at most ten records sold more than 20 units. *)
Theorem counts_before_truncation now records :
  well_dated records ->
  exists d, classify now records = Normal d /\
    saleableCount d = length (List.filter (sold_over 20) records) /\
    nonSaleableCount d = length (List.filter (sold_within 0 3) records) /\
    (length (topSaleableProducts d) <= saleableCount d)%nat /\
    (length (topSaleableProducts d) = saleableCount d <->
     (length (List.filter (sold_over 20) records) <= 10)%nat).
Proof.
  intros Hwd. eexists. split; [now apply classify_well_dated|].
  cbn [topSaleableProducts saleableCount nonSaleableCount].
  rewrite length_firstn, sort_elems_length.
  repeat split; lia.
Qed.

(** C4. For every input whose rating dates are well formed,
    [nonSaleableProducts] has at most ten elements, each of which sold more
    than 0 and less than 3 units; a record that sold 0 units, or whose
    [total_units_sold] is not set, is not in it. *)
Theorem nonSaleableProducts_low_sellers now records :
  well_dated records ->
  exists d, classify now records = Normal d /\
    (length (nonSaleableProducts d) <= 10)%nat /\
    Forall (fun p => exists z, units_sold p = Num z /\ 0 < z < 3) (nonSaleableProducts d) /\
    (forall p, units_sold p = Num 0 -> ~ In p (nonSaleableProducts d)) /\
    (forall p, p !! "total_units_sold" = None -> ~ In p (nonSaleableProducts d)).
Proof.
  intros Hwd. eexists. split; [now apply classify_well_dated|].
  cbn [nonSaleableProducts].
  assert (Hall : Forall (fun p => exists z, units_sold p = Num z /\ 0 < z < 3)
                   (List.firstn 10 (sort_elems byUnitsSoldDesc
                      (List.filter (sold_within 0 3) records)))).
  { apply firstn_Forall, sort_elems_Forall, List.Forall_forall.
    intros p [_ Hp]%filter_In. apply isNonSaleable_units.
    now rewrite isNonSaleable_sold_within. }
  split; [apply firstn_le_length|]. split; [exact Hall|].
  rewrite List.Forall_forall in Hall. split.
  - intros p Hzero Hin. destruct (Hall p Hin) as (z & Hz & Hrange).
    rewrite Hzero in Hz. injection Hz as <-. lia.
  - intros p Habsent Hin. destruct (Hall p Hin) as (z & Hz & _).
    unfold units_sold, get in Hz. rewrite Habsent in Hz. discriminate.
Qed.

(** C2. For every input whose rating dates are well formed, and a clock
    in the range of Date objects, [currentRatedProducts] holds exactly the
    records that have a rating date whose UTC day is the UTC day of [now],
    whatever the time of day; a record without [latest_rating_date] is not
    in it; and the list is not cut: it has as many elements as there are
    such records in the input. *)
Theorem currentRatedProducts_today now records :
  time_valid now -> well_dated records ->
  exists d, classify now records = Normal d /\
    (forall p, In p (currentRatedProducts d) <->
               In p records /\ exists t, rating_time p = Some t /\ Day t = Day now) /\
    (forall p, p !! "latest_rating_date" = None -> ~ In p (currentRatedProducts d)) /\
    length (currentRatedProducts d) = length (List.filter (rated_on (Day now)) records).
Proof.
  intros Hnow Hwd. eexists. split; [now apply classify_well_dated|].
  cbn [currentRatedProducts].
  rewrite (List.filter_ext _ _ (fun p => rated_on_date_day now p Hnow)).
  assert (Hin : forall p, In p (List.filter (rated_on (Day now)) records) <->
                  In p records /\ exists t, rating_time p = Some t /\ Day t = Day now).
  { intros p. rewrite filter_In. unfold rated_on.
    destruct (rating_time p) as [t|].
    - rewrite Z.eqb_eq. split.
      + intros [Hp Ht]. split; [assumption|]. now exists t.
      + intros [Hp (t' & [= <-] & Ht)]. now split.
    - split; [intros [_ ?]; discriminate | intros [_ (t & ? & _)]; discriminate]. }
  split; [exact Hin|]. split; [|reflexivity].
  intros p Habsent [_ (t & Ht & _)]%Hin.
  unfold rating_time, get in Ht. rewrite Habsent in Ht. discriminate.
Qed.

(** C5. For every input whose rating dates are well formed, both lists are
    the first ten elements of a stable descending sort of their filtered
    records; each list is in descending order of units sold, and for every
    number of units [k] the records of the list that sold [k] units are the
    first such records of the input, in the order they have in the input. *)
Theorem sorts_stable_descending now records :
  well_dated records ->
  exists d, classify now records = Normal d /\
    (exists s, stable_descending_sort (List.filter (sold_over 20) records) s /\
               topSaleableProducts d = List.firstn 10 s) /\
    (exists s, stable_descending_sort (List.filter (sold_within 0 3) records) s /\
               nonSaleableProducts d = List.firstn 10 s) /\
    descending (topSaleableProducts d) /\
    descending (nonSaleableProducts d) /\
    (forall k, exists rest,
       List.filter (fun p => bool_decide (units_sold p = k)) records =
       (List.filter (fun p => bool_decide (units_sold p = k)) (topSaleableProducts d)
        ++ rest)%list) /\
    (forall k, exists rest,
       List.filter (fun p => bool_decide (units_sold p = k)) records =
       (List.filter (fun p => bool_decide (units_sold p = k)) (nonSaleableProducts d)
        ++ rest)%list).
Proof.
  intros Hwd. eexists. split; [now apply classify_well_dated|].
  cbn [topSaleableProducts nonSaleableProducts].
  pose proof (sold_over_counted 20 records) as Htop.
  pose proof (sold_within_counted 0 3 records) as Hlow.
  split; [|split; [|split; [|split; [|split]]]].
  - eexists. split; [now apply sort_elems_stable_descending | reflexivity].
  - eexists. split; [now apply sort_elems_stable_descending | reflexivity].
  - now apply firstn_StronglySorted, sort_elems_descending.
  - now apply firstn_StronglySorted, sort_elems_descending.
  - intros k.
    apply (firstn_sort_filter_order
             (fun u => match u with Num z => Z.ltb 20 z | NaN => false end)).
    intros p Hp. destruct (units_sold p) as [|z] eqn:E; [discriminate|]. now exists z.
  - intros k.
    apply (firstn_sort_filter_order
             (fun u => match u with Num z => Z.ltb 0 z && Z.ltb z 3 | NaN => false end)).
    intros p Hp. destruct (units_sold p) as [|z] eqn:E; [discriminate|]. now exists z.
Qed.

(** C10. For every input whose rating dates are well formed, and a clock in
    the range of Date objects, [currentRatedProducts] is the input with the
    records that were not rated today left out: the records rated today, in
    the order of the input. *)
Theorem currentRatedProducts_input_order now records :
  time_valid now -> well_dated records ->
  exists d, classify now records = Normal d /\
    currentRatedProducts d = List.filter (rated_on (Day now)) records /\
    sublist (currentRatedProducts d) records.
Proof.
  intros Hnow Hwd. eexists. split; [now apply classify_well_dated|].
  cbn [currentRatedProducts].
  rewrite (List.filter_ext _ _ (fun p => rated_on_date_day now p Hnow)).
  split; [reflexivity | apply filter_sublist].
Qed.

(** C8. Two classifications of the same records with clocks on the same
    UTC day have the same outcome: the same lists and counts, or the same
    exception. *)
Theorem classify_deterministic now now' records :
  Day now = Day now' -> classify now records = classify now' records.
Proof.
  intros Hday. rewrite !classify_eq. cbv zeta.
  now rewrite (iso_date_same_day now now' Hday).
Qed.

(** C9. The classification of the empty array returns, with three empty
    lists and both counts 0. *)
Theorem classify_empty now :
  classify now [] =
  Normal {| topSaleableProducts := [];
            nonSaleableProducts := [];
            currentRatedProducts := [];
            loading := false;
            error := None;
            saleableCount := 0;
            nonSaleableCount := 0 |}.
Proof. rewrite classify_eq. reflexivity. Qed.

(** *** Records and absent counters *)

Lemma get_insert_eq (p : product) k v : get (<[k:=v]> p) k = v.
Proof. unfold get. now rewrite lookup_insert_eq. Qed.

Lemma get_insert_ne (p : product) k k' v : k <> k' -> get (<[k:=v]> p) k' = get p k'.
Proof. intros Hne. unfold get. now rewrite lookup_insert_ne. Qed.

Lemma get_absent (p : product) k : p !! k = None -> get p k = VUndefined.
Proof. intros Habsent. unfold get. now rewrite Habsent. Qed.

(** C7. For every input whose rating dates are well formed, the run leaves
    the input array as it was, and each of the three lists holds records of
    the input, no more often than the input does: records are moved, never
    changed or rebuilt, so a counter that is not set in the input is not set
    in the output.  A record whose [total_units_sold] or [current_stock] is
    not set is selected by each of the three filters exactly as the same
    record with that counter set to 0. *)
Theorem records_returned_unchanged now records :
  well_dated records ->
  exists d h, run now records = (Normal d, h) /\
    h !! 0%nat = Some records /\
    topSaleableProducts (contents h d) ⊆+ records /\
    nonSaleableProducts (contents h d) ⊆+ records /\
    currentRatedProducts (contents h d) ⊆+ records /\
    (forall k today (p : product),
       k = "total_units_sold" \/ k = "current_stock" ->
       p !! k = None ->
       isSaleable (<[k:=VNum (Num 0)]> p) = isSaleable p /\
       isNonSaleable (<[k:=VNum (Num 0)]> p) = isNonSaleable p /\
       isRatedToday today (<[k:=VNum (Num 0)]> p) = isRatedToday today p).
Proof.
  intros Hwd. pose proof (run_eq now records) as Hrun. cbv zeta in Hrun.
  unfold well_dated in Hwd. rewrite Hwd in Hrun.
  eexists _, _. split; [exact Hrun|].
  split; [reflexivity|].
  cbn [contents topSaleableProducts nonSaleableProducts currentRatedProducts].
  split; [apply firstn_sort_filter_submseteq|].
  split; [apply firstn_sort_filter_submseteq|].
  split; [apply sublist_submseteq, filter_sublist|].
  intros k today p [-> | ->] Habsent.
  - unfold isSaleable, isNonSaleable, isRatedToday.
    rewrite get_insert_eq, (get_absent p _ Habsent).
    rewrite (get_insert_ne p "total_units_sold" "latest_rating_date") by discriminate.
    repeat split.
  - unfold isSaleable, isNonSaleable, isRatedToday.
    rewrite (get_insert_ne p "current_stock" "total_units_sold") by discriminate.
    rewrite (get_insert_ne p "current_stock" "latest_rating_date") by discriminate.
    repeat split.
Qed.

(** *** Rating dates that are not dates *)

(** C6. The classification throws on an input that has a record whose
    [latest_rating_date] is set but denotes no time: [toISOString] raises a
    RangeError inside the third filter, the [catch] clause turns it into the
    error state, and none of the lists is set. *)
Theorem malformed_rating_date_throws prev now records :
  (exists p, In p records /\
             ToBoolean (get p "latest_rating_date") = true /\
             Date_new (get p "latest_rating_date") = NaN) ->
  classify now records = Throw (RangeError "Invalid time value") /\
  settle prev now records =
    {| topSaleableProducts := topSaleableProducts prev;
       nonSaleableProducts := nonSaleableProducts prev;
       currentRatedProducts := currentRatedProducts prev;
       loading := false;
       error := Some "Failed to fetch analytics data";
       saleableCount := saleableCount prev;
       nonSaleableCount := nonSaleableCount prev |}.
Proof.
  intros (p & Hin & Htruthy & Hnan).
  assert (Hthrow : classify now records = Throw (RangeError "Invalid time value")).
  { rewrite classify_eq. cbv zeta.
    destruct (forallb rating_date_ok records) eqn:Hall; [exfalso|reflexivity].
    rewrite forallb_forall in Hall. specialize (Hall p Hin).
    unfold rating_date_ok in Hall. rewrite Htruthy, Hnan in Hall. discriminate. }
  split; [exact Hthrow|]. unfold settle. now rewrite Hthrow.
Qed.

End facts.

(** *** The worked example *)

#[local] Existing Instance Samples.sampleHost.
Import Samples.

(** The five records at noon of 1 May 2024: records 1 and 2 sell best,
    records 3 and 5 sell poorly and keep their order, record 5 was rated
    today, and record 4, which sold nothing, is in no list. *)
Example fiveRecords_classified :
  classify noon fiveRecords =
  Normal {| topSaleableProducts := [sold 1 25; sold 2 21];
            nonSaleableProducts := [sold 3 2; rated "2024-05-01T10:00:00.000Z" (sold 5 2)];
            currentRatedProducts := [rated "2024-05-01T10:00:00.000Z" (sold 5 2)];
            loading := false;
            error := None;
            saleableCount := 2;
            nonSaleableCount := 2 |}.
Proof. reflexivity. Qed.

(** A record without counters that was rated today is returned as it came
    in, its [total_units_sold] still not set. *)
Example bareRecord_returned :
  (currentRatedProducts <$> classify noon [bareRecord]) = Normal [bareRecord] /\
  bareRecord !! "total_units_sold" = None.
Proof. split; reflexivity. Qed.

(** Twelve records rated today are all listed. *)
Example currentRatedProducts_not_cut :
  (length <$> (currentRatedProducts <$> classify noon (List.repeat bareRecord 12)))
  = Normal 12%nat.
Proof. reflexivity. Qed.

Lemma topSaleableProducts_top_ten_example :
  well_dated fiveRecords /\
  exists d, classify noon fiveRecords = Normal d /\
            (length (topSaleableProducts d) <= 10)%nat /\
            Forall (fun p => exists z, units_sold p = Num z /\ 20 < z) (topSaleableProducts d).
Proof.
  assert (Hwd : well_dated fiveRecords) by (vm_compute; reflexivity).
  split; [exact Hwd|].
  destruct (topSaleableProducts_top_ten noon fiveRecords Hwd)
    as (d & Hd & _ & _ & Hlen & Hall).
  exists d. repeat split; assumption.
Defined.

Lemma currentRatedProducts_today_example :
  time_valid noon /\ well_dated fiveRecords /\
  exists d, classify noon fiveRecords = Normal d /\
            forall p, In p (currentRatedProducts d) <->
                      In p fiveRecords /\ exists t, rating_time p = Some t /\ Day t = Day noon.
Proof.
  assert (Hnow : time_valid noon) by (unfold time_valid, maxTime, noon; lia).
  assert (Hwd : well_dated fiveRecords) by (vm_compute; reflexivity).
  split; [exact Hnow|]. split; [exact Hwd|].
  destruct (currentRatedProducts_today noon fiveRecords Hnow Hwd)
    as (d & Hd & Hin & _).
  exists d. split; assumption.
Defined.

Lemma counts_before_truncation_example :
  well_dated fiveRecords /\
  exists d, classify noon fiveRecords = Normal d /\
            saleableCount d = length (List.filter (sold_over 20) fiveRecords) /\
            nonSaleableCount d = length (List.filter (sold_within 0 3) fiveRecords).
Proof.
  assert (Hwd : well_dated fiveRecords) by (vm_compute; reflexivity).
  split; [exact Hwd|].
  destruct (counts_before_truncation noon fiveRecords Hwd)
    as (d & Hd & Hs & Hn & _).
  exists d. repeat split; assumption.
Defined.

Lemma nonSaleableProducts_low_sellers_example :
  well_dated fiveRecords /\
  exists d, classify noon fiveRecords = Normal d /\
            (length (nonSaleableProducts d) <= 10)%nat /\
            ~ In (sold 4 0) (nonSaleableProducts d).
Proof.
  assert (Hwd : well_dated fiveRecords) by (vm_compute; reflexivity).
  split; [exact Hwd|].
  destruct (nonSaleableProducts_low_sellers noon fiveRecords Hwd)
    as (d & Hd & Hlen & _ & Hzero & _).
  exists d. repeat split; [assumption | assumption |].
  apply Hzero. reflexivity.
Defined.

Lemma sorts_stable_descending_example :
  well_dated fiveRecords /\
  exists d, classify noon fiveRecords = Normal d /\
            descending (topSaleableProducts d) /\
            descending (nonSaleableProducts d).
Proof.
  assert (Hwd : well_dated fiveRecords) by (vm_compute; reflexivity).
  split; [exact Hwd|].
  destruct (sorts_stable_descending noon fiveRecords Hwd)
    as (d & Hd & _ & _ & Htop & Hlow & _).
  exists d. repeat split; assumption.
Defined.

Lemma currentRatedProducts_input_order_example :
  time_valid noon /\ well_dated fiveRecords /\
  exists d, classify noon fiveRecords = Normal d /\
            sublist (currentRatedProducts d) fiveRecords.
Proof.
  assert (Hnow : time_valid noon) by (unfold time_valid, maxTime, noon; lia).
  assert (Hwd : well_dated fiveRecords) by (vm_compute; reflexivity).
  split; [exact Hnow|]. split; [exact Hwd|].
  destruct (currentRatedProducts_input_order noon fiveRecords Hnow Hwd)
    as (d & Hd & _ & Hsub).
  exists d. split; assumption.
Defined.

Lemma classify_deterministic_example :
  Day noon = Day evening /\ classify noon fiveRecords = classify evening fiveRecords.
Proof.
  assert (Hday : Day noon = Day evening) by reflexivity.
  split; [exact Hday|]. exact (classify_deterministic noon evening fiveRecords Hday).
Defined.

Lemma records_returned_unchanged_example :
  well_dated [bareRecord] /\
  exists d h, run noon [bareRecord] = (Normal d, h) /\ h !! 0%nat = Some [bareRecord].
Proof.
  assert (Hwd : well_dated [bareRecord]) by (vm_compute; reflexivity).
  split; [exact Hwd|].
  destruct (records_returned_unchanged noon [bareRecord] Hwd) as (d & h & Hrun & Hkept & _).
  exists d, h. split; assumption.
Defined.

Lemma malformed_rating_date_throws_example :
  (exists p, In p [sold 1 25; badRecord] /\
             ToBoolean (get p "latest_rating_date") = true /\
             Date_new (get p "latest_rating_date") = NaN) /\
  classify noon [sold 1 25; badRecord] = Throw (RangeError "Invalid time value") /\
  error (settle initialState noon [sold 1 25; badRecord]) =
    Some "Failed to fetch analytics data" /\
  topSaleableProducts (settle initialState noon [sold 1 25; badRecord]) = [].
Proof.
  assert (Hbad : exists p, In p [sold 1 25; badRecord] /\
                   ToBoolean (get p "latest_rating_date") = true /\
                   Date_new (get p "latest_rating_date") = NaN).
  { exists badRecord. split; [right; left; reflexivity|]. split; vm_compute; reflexivity. }
  split; [exact Hbad|].
  destruct (malformed_rating_date_throws initialState noon [sold 1 25; badRecord] Hbad)
    as [Hthrow Hsettle].
  split; [exact Hthrow|]. rewrite Hsettle. split; reflexivity.
Defined.

End AnalyticsFacts.

(** ** The requests, the rendering and the selection *)

Module ComponentFacts.
Import JS Store Analytics Fetch Render StoreFacts DateFacts AnalyticsFacts.

Section facts.
Context `{Host}.

(** *** The requests *)

Lemma fetchAnalytics_delivered prev now analyticsRes performanceRes :
  fetchAnalytics prev now analyticsRes performanceRes =
  match delivered analyticsRes performanceRes with
  | Some records => settle prev now records
  | None => errorState prev
  end.
Proof.
  unfold fetchAnalytics, tryBlock, delivered, settle, errorState.
  destruct analyticsRes as [|[] [|?]], performanceRes as [|[] [|[records|]]];
    try reflexivity.
  destruct (classify now records); reflexivity.
Qed.

Lemma settle_well_dated prev now records d :
  classify now records = Normal d -> settle prev now records = d.
Proof. intros Hd. unfold settle. now rewrite Hd. Qed.

Lemma settle_not_well_dated prev now records :
  ~ well_dated records -> settle prev now records = errorState prev.
Proof.
  intros Hwd. unfold settle. rewrite classify_eq. cbv zeta.
  unfold well_dated in Hwd. destruct (forallb rating_date_ok records); [now destruct Hwd|].
  reflexivity.
Qed.

Lemma classify_Normal_error now records d :
  classify now records = Normal d -> loading d = false /\ error d = None.
Proof.
  rewrite classify_eq. cbv zeta.
  destruct (forallb rating_date_ok records); [|discriminate].
  intros [= <-]. split; reflexivity.
Qed.

(** The state [fetchAnalytics] leaves is the classified state or the error
    state. *)
Lemma fetchAnalytics_settled prev now analyticsRes performanceRes :
  (exists records d,
     delivered analyticsRes performanceRes = Some records /\
     classify now records = Normal d /\
     fetchAnalytics prev now analyticsRes performanceRes = d) \/
  ((forall records, delivered analyticsRes performanceRes = Some records ->
                    forallb rating_date_ok records = false) /\
   fetchAnalytics prev now analyticsRes performanceRes = errorState prev).
Proof.
  rewrite fetchAnalytics_delivered.
  destruct (delivered analyticsRes performanceRes) as [records|];
    [|right; split; [discriminate | reflexivity]].
  destruct (forallb rating_date_ok records) eqn:Hwd.
  - left. destruct (proj2 (classify_Normal_iff now records) Hwd) as [d Hd].
    exists records, d. split; [reflexivity|]. split; [assumption|].
    now apply settle_well_dated.
  - right. split; [now intros ? [= <-]|].
    apply settle_not_well_dated. unfold well_dated. now rewrite Hwd.
Qed.

(** X1. [fetchAnalytics] ends in one of two ways.  Either both responses
    are there, both are [ok], both bodies are JSON, the second has the array
    of records and the classification of that array returns: then the state
    is the classified one, without error.  Or the state is the error state,
    whatever failed. *)
Theorem fetchAnalytics_outcome prev now analyticsRes performanceRes :
  (exists records d,
     delivered analyticsRes performanceRes = Some records /\
     classify now records = Normal d /\
     fetchAnalytics prev now analyticsRes performanceRes = d /\
     error d = None) \/
  ((forall records, delivered analyticsRes performanceRes = Some records ->
                    ~ well_dated records) /\
   fetchAnalytics prev now analyticsRes performanceRes = errorState prev).
Proof.
  rewrite fetchAnalytics_delivered.
  destruct (delivered analyticsRes performanceRes) as [records|].
  - destruct (bool_dec (forallb rating_date_ok records) true) as [Hwd|Hwd];
      fold (well_dated records) in Hwd.
    + left. destruct (proj2 (classify_Normal_iff now records) Hwd) as [d Hd].
      exists records, d. split; [reflexivity|]. split; [assumption|].
      split; [now apply settle_well_dated | now apply classify_Normal_error in Hd].
    + right. split; [now intros ? [= <-] | now apply settle_not_well_dated].
  - right. split; [discriminate | reflexivity].
Qed.

(** X2. The analytics response is not read, but it is needed: when it is
    missing, not [ok] or not JSON, the state is the error state, whatever the
    performance response holds. *)
Theorem analytics_failure_discards_performance prev now analyticsRes performanceRes :
  (forall document, analyticsRes <> Response true (Document document)) ->
  fetchAnalytics prev now analyticsRes performanceRes = errorState prev.
Proof.
  intros Hfailed. rewrite fetchAnalytics_delivered.
  destruct analyticsRes as [|[] [|document]]; try reflexivity.
  now destruct (Hfailed document).
Qed.

(** *** The view of the settled state *)

Lemma render_errorState prev :
  render (errorState prev) = ErrorPanel "Failed to fetch analytics data".
Proof. reflexivity. Qed.

Lemma render_classified now records d :
  classify now records = Normal d -> render d = renderData d.
Proof.
  intros Hd. apply classify_Normal_error in Hd as [Hloading Herror].
  unfold render. now rewrite Hloading, Herror.
Qed.

Lemma renderData_not_panel d message :
  renderData d <> Spinner /\ renderData d <> ErrorPanel message.
Proof. unfold renderData. destruct (_ && _); split; discriminate. Qed.

(** X3. Once [fetchAnalytics] has run the spinner is gone, from whatever
    state it started; and the error panel, with the one message the code
    has, is shown exactly when the requests did not deliver records whose
    classification returns. *)
Theorem settled_view prev now analyticsRes performanceRes :
  render (fetchAnalytics prev now analyticsRes performanceRes) <> Spinner /\
  (render (fetchAnalytics prev now analyticsRes performanceRes)
     = ErrorPanel "Failed to fetch analytics data" <->
   forall records, delivered analyticsRes performanceRes = Some records ->
                   ~ well_dated records).
Proof.
  destruct (fetchAnalytics_settled prev now analyticsRes performanceRes)
    as [(records & d & Hdel & Hd & ->) | [Hfail ->]].
  - rewrite (render_classified now records d Hd).
    destruct (renderData_not_panel d "Failed to fetch analytics data") as [Hs He].
    split; [assumption|]. split; [intros E; now destruct He|].
    intros Hfail. destruct (Hfail records Hdel).
    apply (proj1 (classify_Normal_iff now records)). now exists d.
  - rewrite render_errorState. split; [discriminate|].
    split; [intros _ | reflexivity].
    intros records Hdel Hwd. unfold well_dated in Hwd.
    rewrite (Hfail records Hdel) in Hwd. discriminate.
Qed.

Lemma firstn_nil_iff {A} n (l : list A) :
  (0 < n)%nat -> length (List.firstn n l) = 0%nat <-> l = [].
Proof.
  intros Hn. rewrite length_firstn. split.
  - intros Hlen. destruct l; [reflexivity | simpl in Hlen; lia].
  - intros ->. simpl. lia.
Qed.

Lemma sort_elems_nil_iff comparefn (l : list product) :
  sort_elems comparefn l = [] <-> l = [].
Proof.
  split; [|now intros ->]. intros Hnil.
  apply length_zero_iff_nil. rewrite <- (sort_elems_length comparefn), Hnil. reflexivity.
Qed.

Lemma filter_nil_iff {A} (P : A -> bool) (l : list A) :
  List.filter P l = [] <-> forall x, In x l -> P x = false.
Proof.
  induction l as [|a l IH]; cbn [List.filter].
  - split; [intros _ x [] | reflexivity].
  - destruct (P a) eqn:Ea.
    + split; [discriminate|]. intros Hall. rewrite (Hall a) in Ea by now left. discriminate.
    + rewrite IH. split.
      * intros Hall x [<- | Hx]; [assumption | now apply Hall].
      * intros Hall x Hx. apply Hall. now right.
Qed.

Lemma shown_nil_iff (P : product -> bool) records :
  Nat.eqb (length (List.firstn 10 (sort_elems byUnitsSoldDesc (List.filter P records)))) 0 = true
  <-> forall p, In p records -> P p = false.
Proof.
  rewrite Nat.eqb_eq, firstn_nil_iff by lia.
  now rewrite sort_elems_nil_iff, filter_nil_iff.
Qed.

(** X4. For records whose rating dates are well formed, the message that
    there are no analytics yet is shown exactly when no record sold more
    than 20 units, none sold 1 or 2 units and none was rated today: a
    catalogue of records that sold between 3 and 20 units, or nothing,
    counts as no data. *)
Theorem no_analytics_iff prev now records :
  time_valid now -> well_dated records ->
  (render (settle prev now records) = NoAnalytics "No analytics data available yet" <->
   forall p, In p records ->
             sold_over 20 p = false /\ sold_within 0 3 p = false /\
             rated_on (Day now) p = false).
Proof.
  intros Hnow Hwd.
  pose proof (classify_well_dated now records Hwd) as Hd.
  rewrite (settle_well_dated prev now records _ Hd), (render_classified now records _ Hd).
  unfold renderData.
  cbn [topSaleableProducts nonSaleableProducts currentRatedProducts].
  rewrite (List.filter_ext _ _ (fun p => rated_on_date_day now p Hnow)).
  destruct (Nat.eqb (length (List.firstn 10 _)) 0) eqn:Htop at 1.
  2:{ split; [discriminate|]. intros Hnone.
      apply not_true_iff_false in Htop. destruct Htop.
      apply shown_nil_iff. intros p Hp. apply Hnone, Hp. }
  destruct (Nat.eqb (length (List.firstn 10 _)) 0) eqn:Hlow at 1.
  2:{ split; [discriminate|]. intros Hnone.
      apply not_true_iff_false in Hlow. destruct Hlow.
      apply shown_nil_iff. intros p Hp. apply Hnone, Hp. }
  destruct (Nat.eqb (length (List.filter _ records)) 0) eqn:Hrated.
  2:{ split; [discriminate|]. intros Hnone.
      apply not_true_iff_false in Hrated. destruct Hrated.
      apply Nat.eqb_eq, length_zero_iff_nil, filter_nil_iff.
      intros p Hp. apply Hnone, Hp. }
  split; [intros _|reflexivity].
  intros p Hp. split; [|split].
  - now apply (proj1 (shown_nil_iff _ records) Htop).
  - now apply (proj1 (shown_nil_iff _ records) Hlow).
  - apply Nat.eqb_eq, length_zero_iff_nil in Hrated.
    now apply (proj1 (filter_nil_iff _ records) Hrated).
Qed.

(** *** The dashboard *)

Lemma settle_dashboard prev now records ch t l r :
  render (settle prev now records) = Dashboard ch t l r -> well_dated records.
Proof.
  intros Hview.
  destruct (bool_dec (forallb rating_date_ok records) true) as [Hwd|Hwd];
    fold (well_dated records) in Hwd; [assumption|].
  rewrite (settle_not_well_dated prev now records Hwd), render_errorState in Hview.
  discriminate.
Qed.

(** The rows of a card are its products, each once, in their order; the
    header counts them. *)
Lemma cardRows_ProductCard title Icon products type :
  cardRows (ProductCard title Icon products type) = List.map (productRow type) products.
Proof.
  unfold cardRows, ProductCard. cbn [body].
  destruct products as [|p products]; reflexivity.
Qed.

Lemma shown_nonempty (P : product -> bool) records :
  List.firstn 10 (sort_elems byUnitsSoldDesc (List.filter P records)) <> [] <->
  (0 < length (List.filter P records))%nat.
Proof.
  rewrite <- (sort_elems_length byUnitsSoldDesc).
  destruct (sort_elems byUnitsSoldDesc (List.filter P records)); simpl.
  - split; [now intros [] | lia].
  - split; [lia | discriminate].
Qed.

Lemma map_nonempty {A B} (f : A -> B) (l : list A) : List.map f l <> [] <-> l <> [].
Proof. destruct l; simpl; split; try discriminate; now intros []. Qed.

(** X5. In the dashboard of a classified input the distribution chart is
    drawn exactly when the card of top performing products or the card of
    low performing products has rows; when the chart is replaced by its
    message, the card of rated products has rows. *)
Theorem chart_iff_cards prev now records ch t l r :
  render (settle prev now records) = Dashboard ch t l r ->
  ((exists data, ch = PieChart data) <-> cardRows t <> [] \/ cardRows l <> []) /\
  ((exists message, ch = NoDistribution message) -> cardRows r <> []).
Proof.
  intros Hview. pose proof (settle_dashboard _ _ _ _ _ _ _ Hview) as Hwd.
  pose proof (classify_well_dated now records Hwd) as Hd.
  rewrite (settle_well_dated prev now records _ Hd), (render_classified now records _ Hd)
    in Hview.
  unfold renderData, pieData in Hview.
  cbn [topSaleableProducts nonSaleableProducts currentRatedProducts
       saleableCount nonSaleableCount existsb snd] in Hview.
  destruct (_ && _ && _) eqn:Hempty in Hview; [discriminate|].
  injection Hview as <- <- <- <-.
  rewrite !cardRows_ProductCard, !map_nonempty, !shown_nonempty.
  rewrite orb_false_r.
  destruct (Nat.ltb_spec 0 (length (List.filter (sold_over 20) records))) as [Htop|Htop];
    destruct (Nat.ltb_spec 0 (length (List.filter (sold_within 0 3) records))) as [Hlow|Hlow];
    cbn [orb].
  - split; [split; [now left | now eexists] | intros [m [=]]].
  - split; [split; [now left | now eexists] | intros [m [=]]].
  - split; [split; [now right | now eexists] | intros [m [=]]].
  - split.
    + split; [intros [data [=]] | lia].
    + intros _ Hrated. apply andb_false_iff in Hempty as [Hempty|Hempty].
      * apply andb_false_iff in Hempty as [Hempty|Hempty];
          apply Nat.eqb_neq in Hempty; rewrite length_firstn, sort_elems_length in Hempty; lia.
      * apply Nat.eqb_neq in Hempty. now rewrite Hrated in Hempty.
Qed.

(** X6. In the dashboard of a classified input the header of each of the
    two performance cards counts its rows, at most ten, while the slices of
    the chart count all the records of each kind: the header is the smaller
    of ten and the slice. *)
Theorem dashboard_numbers prev now records ch t l r :
  render (settle prev now records) = Dashboard ch t l r ->
  items t = length (cardRows t) /\
  items l = length (cardRows l) /\
  items t = Nat.min 10 (length (List.filter (sold_over 20) records)) /\
  items l = Nat.min 10 (length (List.filter (sold_within 0 3) records)) /\
  (forall data, ch = PieChart data ->
     data = [("Saleable Products", length (List.filter (sold_over 20) records));
             ("Non-Saleable Products", length (List.filter (sold_within 0 3) records))]).
Proof.
  intros Hview. pose proof (settle_dashboard _ _ _ _ _ _ _ Hview) as Hwd.
  pose proof (classify_well_dated now records Hwd) as Hd.
  rewrite (settle_well_dated prev now records _ Hd), (render_classified now records _ Hd)
    in Hview.
  unfold renderData, pieData in Hview.
  cbn [topSaleableProducts nonSaleableProducts currentRatedProducts
       saleableCount nonSaleableCount] in Hview.
  destruct (_ && _ && _) in Hview; [discriminate|].
  injection Hview as <- <- <- <-.
  rewrite !cardRows_ProductCard, !length_map. cbn [items ProductCard].
  rewrite !length_firstn, !sort_elems_length.
  repeat split.
  intros data Hdata. destruct (_ || _) in Hdata; [now injection Hdata as <- | discriminate].
Qed.

(** *** More on the classified lists *)

Lemma settle_initial_cases now records :
  (well_dated records /\
   settle initialState now records =
     {| topSaleableProducts :=
          List.firstn 10 (sort_elems byUnitsSoldDesc (List.filter (sold_over 20) records));
        nonSaleableProducts :=
          List.firstn 10 (sort_elems byUnitsSoldDesc (List.filter (sold_within 0 3) records));
        currentRatedProducts := List.filter (rated_on_date (iso_date now)) records;
        loading := false;
        error := None;
        saleableCount := length (List.filter (sold_over 20) records);
        nonSaleableCount := length (List.filter (sold_within 0 3) records) |}) \/
  settle initialState now records = errorState initialState.
Proof.
  destruct (bool_dec (forallb rating_date_ok records) true) as [Hwd|Hwd];
    fold (well_dated records) in Hwd.
  - left. split; [assumption|].
    apply settle_well_dated, classify_well_dated, Hwd.
  - right. now apply settle_not_well_dated.
Qed.

Lemma shown_In (P : product -> bool) n records p :
  In p (List.firstn n (sort_elems byUnitsSoldDesc (List.filter P records))) ->
  In p records /\ P p = true.
Proof. intros Hp%firstn_In%sort_elems_In. now apply filter_In. Qed.

(** X7. No record is in both performance lists, whatever the input. *)
Theorem performance_lists_disjoint now records p :
  In p (topSaleableProducts (settle initialState now records)) ->
  ~ In p (nonSaleableProducts (settle initialState now records)).
Proof.
  destruct (settle_initial_cases now records) as [[_ ->] | ->];
    cbn [topSaleableProducts nonSaleableProducts errorState initialState];
    [|now intros []].
  intros [_ Htop]%shown_In [_ Hlow]%shown_In.
  unfold sold_over, sold_within in *.
  destruct (units_sold p) as [|z]; [discriminate|].
  apply Z.ltb_lt in Htop. apply andb_true_iff in Hlow as [_ Hlow%Z.ltb_lt]. lia.
Qed.

Lemma filter_disjoint_length {A} (P Q : A -> bool) (l : list A) :
  (forall x, P x = true -> Q x = false) ->
  (length (List.filter P l) + length (List.filter Q l) <= length l)%nat.
Proof.
  intros Hdisj. induction l as [|a l IH]; cbn [List.filter length]; [lia|].
  destruct (P a) eqn:Ea; [rewrite (Hdisj a Ea) | destruct (Q a)]; cbn [length]; lia.
Qed.

(** X8. The two counts, and so the two slices of the chart, never add up
    to more than the number of records of the input; a record that sold
    nothing, or between 3 and 20 units, is in neither performance list. *)
Theorem counts_within_input now records :
  (saleableCount (settle initialState now records) +
   nonSaleableCount (settle initialState now records) <= length records)%nat /\
  (forall p z, units_sold p = Num z -> z <= 0 \/ 3 <= z <= 20 ->
     ~ In p (topSaleableProducts (settle initialState now records)) /\
     ~ In p (nonSaleableProducts (settle initialState now records))).
Proof.
  split.
  - destruct (settle_initial_cases now records) as [[_ ->] | ->];
      cbn [saleableCount nonSaleableCount errorState initialState]; [|lia].
    apply filter_disjoint_length. intros p. unfold sold_over, sold_within.
    destruct (units_sold p) as [|z]; [discriminate|].
    intros Hp%Z.ltb_lt. apply andb_false_iff. right. apply Z.ltb_ge. lia.
  - intros p z Hz Hband.
    destruct (settle_initial_cases now records) as [[_ ->] | ->];
      cbn [topSaleableProducts nonSaleableProducts errorState initialState];
      [|split; now intros []].
    split; intros [_ Hp]%shown_In; unfold sold_over, sold_within in Hp; rewrite Hz in Hp.
    + apply Z.ltb_lt in Hp. lia.
    + apply andb_true_iff in Hp as [Hlo%Z.ltb_lt Hhi%Z.ltb_lt]. lia.
Qed.

Lemma StronglySorted_app_rel {A} (R : A -> A -> Prop) (l1 l2 : list A) :
  StronglySorted R (l1 ++ l2) -> forall a b, In a l1 -> In b l2 -> R a b.
Proof.
  induction l1 as [|x l1 IH]; intros Hsorted a b Ha Hb; [destruct Ha|].
  cbn [app] in Hsorted. apply StronglySorted_inv in Hsorted as [Hsorted Hx].
  destruct Ha as [<- | Ha]; [|now apply IH].
  rewrite List.Forall_forall in Hx. apply Hx, in_or_app. now right.
Qed.

(** A record of the filtered input that sold more than a shown one is
    shown too. *)
Lemma shown_upward_closed (P : product -> bool) n records a b x y :
  (forall p, P p = true -> counted p) ->
  In a (List.firstn n (sort_elems byUnitsSoldDesc (List.filter P records))) ->
  In b records -> P b = true ->
  units_sold a = Num x -> units_sold b = Num y -> x < y ->
  In b (List.firstn n (sort_elems byUnitsSoldDesc (List.filter P records))).
Proof.
  intros HP Ha Hb HPb Hx Hy Hlt.
  set (s := sort_elems byUnitsSoldDesc (List.filter P records)) in *.
  assert (Hsorted : descending s).
  { apply sort_elems_descending, List.Forall_forall.
    intros p [_ Hp]%filter_In. now apply HP. }
  assert (Hbs : In b s) by (apply sort_elems_In, filter_In; now split).
  rewrite <- (firstn_skipn n s) in Hbs, Hsorted.
  apply in_app_or in Hbs as [Hbs|Hbs]; [assumption|exfalso].
  destruct (StronglySorted_app_rel _ _ _ Hsorted a b Ha Hbs) as (x' & y' & Hx' & Hy' & Hle).
  rewrite Hx in Hx'. rewrite Hy in Hy'. injection Hx' as <-. injection Hy' as <-. lia.
Qed.

(** X9. The top performing products are the best sellers: a record of the
    input that sold more units than a record of [topSaleableProducts] is in
    the list itself. *)
Theorem top_sellers_are_best now records a b x y :
  In a (topSaleableProducts (settle initialState now records)) ->
  In b records ->
  units_sold a = Num x -> units_sold b = Num y -> x < y ->
  In b (topSaleableProducts (settle initialState now records)).
Proof.
  destruct (settle_initial_cases now records) as [[_ ->] | ->];
    cbn [topSaleableProducts errorState initialState]; [|now intros []].
  intros Ha Hb Hx Hy Hlt.
  apply (shown_upward_closed (sold_over 20) 10 records a b x y); trivial.
  - intros p Hp. unfold sold_over in Hp.
    destruct (units_sold p) as [|z] eqn:E; [discriminate|]. now exists z.
  - apply shown_In in Ha as [_ Ha]. unfold sold_over in *. rewrite Hx in Ha. rewrite Hy.
    apply Z.ltb_lt in Ha. apply Z.ltb_lt. lia.
Qed.

(** X10. The low performing products are listed best first and cut from
    the bottom: when a record that sold 1 unit is in [nonSaleableProducts],
    every record of the input that sold 2 units is in it. *)
Theorem low_sellers_cut_from_bottom now records a b :
  In a (nonSaleableProducts (settle initialState now records)) ->
  units_sold a = Num 1 ->
  In b records -> units_sold b = Num 2 ->
  In b (nonSaleableProducts (settle initialState now records)).
Proof.
  destruct (settle_initial_cases now records) as [[_ ->] | ->];
    cbn [nonSaleableProducts errorState initialState]; [|now intros []].
  intros Ha Hx Hb Hy.
  apply (shown_upward_closed (sold_within 0 3) 10 records a b 1 2); trivial; [|now unfold sold_within; rewrite Hy|lia].
  intros p Hp. unfold sold_within in Hp.
  destruct (units_sold p) as [|z] eqn:E; [discriminate|]. now exists z.
Qed.

(** X11. Records without a rating date never make the classification
    throw: when no record has a truthy [latest_rating_date], the
    classification returns and no product is listed as rated today. *)
Theorem undated_records_classified now records :
  (forall p, In p records -> ToBoolean (get p "latest_rating_date") = false) ->
  exists d, classify now records = Normal d /\ currentRatedProducts d = [].
Proof.
  intros Hundated.
  assert (Hwd : well_dated records).
  { apply forallb_forall. intros p Hp. unfold rating_date_ok.
    now rewrite (Hundated p Hp). }
  eexists. split; [now apply classify_well_dated|].
  cbn [currentRatedProducts]. apply filter_nil_iff.
  intros p Hp. unfold rated_on_date, rating_time. now rewrite (Hundated p Hp).
Qed.

(** *** The rows *)

(** With the empty string read as 0, as StringToNumber does, a value that
    compares greater than 0 is truthy. *)
Lemma positive_truthy v :
  StringToNumber "" = Num 0 ->
  gt (ToNumber v) (Num 0) = true -> ToBoolean v = true.
Proof.
  intros Hempty. destruct v as [| |[]|[|z]|s]; cbn [ToNumber ToBoolean gt lt]; try discriminate.
  - reflexivity.
  - intros Hz%Z.ltb_lt. apply negb_true_iff, Z.eqb_neq. lia.
  - intros Hs. destruct (String.eqb_spec s "") as [->|]; [|reflexivity].
    rewrite Hempty in Hs. discriminate.
Qed.

(** X12. In the two performance cards the number of units shown in a row
    is the record's own [total_units_sold]: the fallback 0 of
    [product.total_units_sold || 0] is never used there. *)
Theorem performance_rows_show_own_units now records type p :
  StringToNumber "" = Num 0 ->
  In p (topSaleableProducts (settle initialState now records)) \/
  In p (nonSaleableProducts (settle initialState now records)) ->
  rowSold (productRow type p) = get p "total_units_sold".
Proof.
  intros Hempty Hp. cbn [rowSold productRow]. unfold Or.
  rewrite positive_truthy; [reflexivity | assumption |].
  destruct (settle_initial_cases now records) as [[_ Hd] | Hd]; rewrite Hd in Hp;
    cbn [topSaleableProducts nonSaleableProducts errorState initialState] in Hp;
    [|now destruct Hp as [[]|[]]].
  fold (units_sold p).
  destruct Hp as [[_ Hp]%shown_In | [_ Hp]%shown_In];
    unfold sold_over, sold_within in Hp;
    destruct (units_sold p) as [|z]; try discriminate; cbn [gt lt].
  - apply Z.ltb_lt in Hp. apply Z.ltb_lt. lia.
  - now apply andb_true_iff in Hp as [Hp _].
Qed.

(** X13. The stock of a row: the rising icon, in the colour of the card,
    is shown exactly for a record whose [current_stock] is greater than 0,
    and then the stock shown is the record's own; a record without
    [current_stock] gets the gray falling icon and a stock of 0. *)
Theorem row_stock type p :
  StringToNumber "" = Num 0 ->
  (fst (rowStockIcon (productRow type p)) = TrendingUp <->
   exists z, ToNumber (get p "current_stock") = Num z /\ 0 < z) /\
  (fst (rowStockIcon (productRow type p)) = TrendingUp ->
   rowStock (productRow type p) = get p "current_stock" /\
   snd (rowStockIcon (productRow type p)) = "w-4 h-4 mr-1 " ++ getIconColor type true) /\
  (p !! "current_stock" = None ->
   rowStockIcon (productRow type p) = (TrendingDown, "w-4 h-4 mr-1 text-gray-400") /\
   rowStock (productRow type p) = VNum (Num 0)).
Proof.
  intros Hempty. cbn [rowStockIcon rowStock productRow]. unfold Gt, Or.
  cbn [ToBoolean ToNumber].
  split; [|split].
  - destruct (gt (ToNumber (get p "current_stock")) (Num 0)) eqn:Hgt; cbn [fst].
    + split; [intros _|reflexivity].
      unfold gt, lt in Hgt. destruct (ToNumber _) as [|z]; [discriminate|].
      exists z. split; [reflexivity | now apply Z.ltb_lt].
    + split; [discriminate|]. intros (z & Hz & Hpos).
      rewrite Hz in Hgt. cbn [gt lt] in Hgt. apply Z.ltb_ge in Hgt. lia.
  - destruct (gt (ToNumber (get p "current_stock")) (Num 0)) eqn:Hgt; cbn [fst snd];
      [|discriminate].
    intros _. now rewrite (positive_truthy _ Hempty Hgt).
  - intros Habsent. rewrite (get_absent p _ Habsent). split; reflexivity.
Qed.

(** X14. The rating of a row: the star with the rating is shown exactly
    when [average_rating] is truthy.  Otherwise React gets the value itself
    as a child, which shows nothing unless the value is a number: a rating
    of 0 (or NaN) is printed bare, without a star. *)
Theorem row_rating type p :
  ((exists v, rowRating (productRow type p) = Rating v) <->
   ToBoolean (get p "average_rating") = true) /\
  (ToBoolean (get p "average_rating") = false ->
   (visible (rowRating (productRow type p)) = true <->
    get p "average_rating" = VNum (Num 0) \/ get p "average_rating" = VNum NaN)).
Proof.
  cbn [rowRating productRow].
  destruct (get p "average_rating") as [| |[]|[|z]|s] eqn:E; cbn [ToBoolean visible rendersText].
  all: try (split; [split; [intros [v [=]] | discriminate] | intros _;
            split; [discriminate | intros [[=]|[=]]]]).
  - split; [split; [reflexivity | now eexists] | discriminate].
  - split; [split; [intros [v [=]] | discriminate] | intros _; split; [now right | reflexivity]].
  - destruct (Z.eqb_spec z 0) as [->|Hz]; cbn [negb].
    + split; [split; [intros [v [=]] | discriminate] | intros _; split; [now left | reflexivity]].
    + split; [split; [reflexivity | now eexists] | discriminate].
  - destruct (String.eqb_spec s "") as [->|Hs]; cbn [negb visible rendersText].
    + split; [split; [intros [v [=]] | discriminate] | intros _;
              split; [discriminate | intros [[=]|[=]]]].
    + split; [split; [reflexivity | now eexists] | discriminate].
Qed.

(** X15. [getIconColor] gives gray exactly when there is no stock or the
    type is none of the three the cards use: a card of a known type never
    has a gray icon for a product in stock. *)
Theorem getIconColor_gray type hasStock :
  getIconColor type hasStock = "text-gray-400" <->
  hasStock = false \/
  (type <> "saleable" /\ type <> "non-saleable" /\ type <> "rated").
Proof.
  unfold getIconColor. destruct hasStock; cbn [negb].
  2:{ split; [now left | reflexivity]. }
  destruct (String.eqb_spec type "saleable") as [->|H1].
  { split; [discriminate | intros [[=] | (Hne & _)]; now destruct Hne]. }
  destruct (String.eqb_spec type "non-saleable") as [->|H2].
  { split; [discriminate | intros [[=] | (_ & Hne & _)]; now destruct Hne]. }
  destruct (String.eqb_spec type "rated") as [->|H3].
  { split; [discriminate | intros [[=] | (_ & _ & Hne)]; now destruct Hne]. }
  split; [intros _; right; repeat split; assumption | reflexivity].
Qed.

(** *** The selection *)

(** A selected product is the product of a row of the view. *)
Lemma reachable_selected_row v s p :
  reachable v s -> selectedProduct s = Some p ->
  exists r, In r (viewRows v) /\ rowProduct r = p.
Proof.
  intros Hreach. destruct Hreach as [|r s Hs Hr|s Hs];
    cbn [initialSelection rowClick modalClose selectedProduct]; try discriminate.
  intros [= <-]. now exists r.
Qed.

(** X16. Whatever rows are clicked and however often the dialog is closed,
    the dialog is open exactly when a product is selected, and the selected
    product is the product of a row of the view. *)
Theorem selection_invariant v s :
  reachable v s ->
  (isModalOpen s = true <-> exists p, selectedProduct s = Some p) /\
  (forall p, selectedProduct s = Some p -> exists r, In r (viewRows v) /\ rowProduct r = p).
Proof.
  induction 1 as [|r s Hs IH Hr|s Hs IH]; cbn [initialSelection rowClick modalClose
                                                 isModalOpen selectedProduct].
  - split; [split; [discriminate | intros [p [=]]] | intros p [=]].
  - split; [split; [now eexists | reflexivity] | intros p [= <-]; now exists r].
  - split; [split; [discriminate | intros [p [=]]] | intros p [=]].
Qed.

Lemma viewRows_products title Icon products type r :
  In r (cardRows (ProductCard title Icon products type)) -> In (rowProduct r) products.
Proof.
  rewrite cardRows_ProductCard. intros (p & <- & Hp)%in_map_iff. exact Hp.
Qed.

(** X17. After [fetchAnalytics], from whatever state, a product can only
    be selected if the requests delivered records and the product is one of
    them: after a failure no product is ever selected, and no product is
    selected that the server did not send. *)
Theorem selected_product_was_delivered prev now analyticsRes performanceRes s p :
  reachable (render (fetchAnalytics prev now analyticsRes performanceRes)) s ->
  selectedProduct s = Some p ->
  exists records, delivered analyticsRes performanceRes = Some records /\ In p records.
Proof.
  intros Hreach Hsel.
  destruct (reachable_selected_row _ _ _ Hreach Hsel) as (r & Hr & <-). clear Hsel Hreach.
  destruct (fetchAnalytics_settled prev now analyticsRes performanceRes)
    as [(records & d & Hdel & Hd & Hstate) | [_ Hstate]]; rewrite Hstate in Hr.
  2:{ rewrite render_errorState in Hr. destruct Hr. }
  exists records. split; [assumption|].
  rewrite (render_classified now records d Hd) in Hr.
  assert (Hwd : well_dated records) by (apply (proj1 (classify_Normal_iff now records)); now exists d).
  rewrite (classify_well_dated now records Hwd) in Hd. injection Hd as <-.
  unfold renderData in Hr. destruct (_ && _ && _) in Hr; [destruct Hr|].
  cbn [viewRows topSaleableProducts nonSaleableProducts currentRatedProducts] in Hr.
  apply in_app_or in Hr as [Hr | Hr]; [|apply in_app_or in Hr as [Hr | Hr]];
    apply viewRows_products in Hr.
  - now apply shown_In in Hr.
  - now apply shown_In in Hr.
  - now apply filter_In in Hr.
Qed.


End facts.

(** *** The worked example, rendered *)

#[local] Existing Instance Samples.sampleHost.
Import Samples.

(** The five records at noon of 1 May 2024 give the dashboard: the chart
    with slices 2 and 2, two rows in each performance card and one row in
    the card of rated products. *)
Example fiveRecords_rendered :
  match render (fetchAnalytics initialState noon
                  (Response true (Document None))
                  (Response true (Document (Some fiveRecords)))) with
  | Dashboard ch t l r =>
      Some (ch, List.map rowKey (cardRows t), List.map rowKey (cardRows l),
            List.map rowKey (cardRows r))
  | _ => None
  end =
  Some (PieChart [("Saleable Products", 2%nat); ("Non-Saleable Products", 2%nat)],
        [VNum (Num 1); VNum (Num 2)], [VNum (Num 3); VNum (Num 5)], [VNum (Num 5)]).
Proof. vm_compute. reflexivity. Qed.

Lemma analytics_failure_discards_performance_example :
  (forall document, NetworkError <> Response true (Document document)) /\
  fetchAnalytics initialState noon NetworkError (Response true (Document (Some fiveRecords)))
  = errorState initialState.
Proof.
  assert (Hfailed : forall document, NetworkError <> Response true (Document document))
    by (intros document; discriminate).
  split; [exact Hfailed|].
  exact (analytics_failure_discards_performance initialState noon NetworkError
           (Response true (Document (Some fiveRecords))) Hfailed).
Defined.

Lemma no_analytics_iff_example :
  time_valid noon /\ well_dated [sold 4 0; sold 9 7] /\
  (render (settle initialState noon [sold 4 0; sold 9 7])
     = NoAnalytics "No analytics data available yet" <->
   forall p, In p [sold 4 0; sold 9 7] ->
             sold_over 20 p = false /\ sold_within 0 3 p = false /\
             rated_on (Day noon) p = false).
Proof.
  assert (Hnow : time_valid noon) by (unfold time_valid, maxTime, noon; lia).
  assert (Hwd : well_dated [sold 4 0; sold 9 7]) by (vm_compute; reflexivity).
  split; [exact Hnow|]. split; [exact Hwd|].
  exact (no_analytics_iff initialState noon [sold 4 0; sold 9 7] Hnow Hwd).
Defined.

Lemma chart_iff_cards_example :
  exists ch t l r,
    render (settle initialState noon fiveRecords) = Dashboard ch t l r /\
    ((exists data, ch = PieChart data) <-> cardRows t <> [] \/ cardRows l <> []).
Proof.
  destruct (render (settle initialState noon fiveRecords)) as [| | |ch t l r] eqn:Hview;
    try (vm_compute in Hview; discriminate).
  exists ch, t, l, r. split; [reflexivity|].
  exact (proj1 (chart_iff_cards initialState noon fiveRecords ch t l r Hview)).
Defined.

Lemma dashboard_numbers_example :
  exists ch t l r,
    render (settle initialState noon fiveRecords) = Dashboard ch t l r /\
    items t = Nat.min 10 (length (List.filter (sold_over 20) fiveRecords)).
Proof.
  destruct (render (settle initialState noon fiveRecords)) as [| | |ch t l r] eqn:Hview;
    try (vm_compute in Hview; discriminate).
  exists ch, t, l, r. split; [reflexivity|].
  destruct (dashboard_numbers initialState noon fiveRecords ch t l r Hview)
    as (_ & _ & Htop & _).
  exact Htop.
Defined.

Lemma performance_lists_disjoint_example :
  In (sold 1 25) (topSaleableProducts (settle initialState noon fiveRecords)) /\
  ~ In (sold 1 25) (nonSaleableProducts (settle initialState noon fiveRecords)).
Proof.
  assert (Htop : In (sold 1 25) (topSaleableProducts (settle initialState noon fiveRecords)))
    by (left; reflexivity).
  split; [exact Htop|].
  exact (performance_lists_disjoint noon fiveRecords (sold 1 25) Htop).
Defined.

Lemma top_sellers_are_best_example :
  In (sold 2 21) (topSaleableProducts (settle initialState noon fiveRecords)) /\
  In (sold 1 25) fiveRecords /\
  units_sold (sold 2 21) = Num 21 /\ units_sold (sold 1 25) = Num 25 /\ 21 < 25 /\
  In (sold 1 25) (topSaleableProducts (settle initialState noon fiveRecords)).
Proof.
  assert (Ha : In (sold 2 21) (topSaleableProducts (settle initialState noon fiveRecords)))
    by (right; left; reflexivity).
  assert (Hb : In (sold 1 25) fiveRecords) by (left; reflexivity).
  assert (Hx : units_sold (sold 2 21) = Num 21) by reflexivity.
  assert (Hy : units_sold (sold 1 25) = Num 25) by reflexivity.
  assert (Hlt : 21 < 25) by lia.
  repeat (split; [assumption|]).
  exact (top_sellers_are_best noon fiveRecords _ _ 21 25 Ha Hb Hx Hy Hlt).
Defined.

Lemma low_sellers_cut_from_bottom_example :
  In (sold 8 1) (nonSaleableProducts (settle initialState noon [sold 8 1; sold 3 2])) /\
  units_sold (sold 8 1) = Num 1 /\
  In (sold 3 2) [sold 8 1; sold 3 2] /\ units_sold (sold 3 2) = Num 2 /\
  In (sold 3 2) (nonSaleableProducts (settle initialState noon [sold 8 1; sold 3 2])).
Proof.
  assert (Ha : In (sold 8 1)
                 (nonSaleableProducts (settle initialState noon [sold 8 1; sold 3 2])))
    by (right; left; reflexivity).
  assert (Hx : units_sold (sold 8 1) = Num 1) by reflexivity.
  assert (Hb : In (sold 3 2) [sold 8 1; sold 3 2]) by (right; left; reflexivity).
  assert (Hy : units_sold (sold 3 2) = Num 2) by reflexivity.
  repeat (split; [assumption|]).
  exact (low_sellers_cut_from_bottom noon [sold 8 1; sold 3 2] _ _ Ha Hx Hb Hy).
Defined.

Lemma undated_records_classified_example :
  (forall p, In p [sold 1 25; sold 4 0] -> ToBoolean (get p "latest_rating_date") = false) /\
  exists d, classify noon [sold 1 25; sold 4 0] = Normal d /\ currentRatedProducts d = [].
Proof.
  assert (Hundated : forall p, In p [sold 1 25; sold 4 0] ->
                       ToBoolean (get p "latest_rating_date") = false).
  { intros p [<- | [<- | []]]; reflexivity. }
  split; [exact Hundated|].
  exact (undated_records_classified noon [sold 1 25; sold 4 0] Hundated).
Defined.

Lemma performance_rows_show_own_units_example :
  StringToNumber "" = Num 0 /\
  (In (sold 1 25) (topSaleableProducts (settle initialState noon fiveRecords)) \/
   In (sold 1 25) (nonSaleableProducts (settle initialState noon fiveRecords))) /\
  rowSold (productRow "saleable" (sold 1 25)) = get (sold 1 25) "total_units_sold".
Proof.
  assert (Hempty : StringToNumber "" = Num 0) by reflexivity.
  assert (Hp : In (sold 1 25) (topSaleableProducts (settle initialState noon fiveRecords)) \/
               In (sold 1 25) (nonSaleableProducts (settle initialState noon fiveRecords)))
    by (left; left; reflexivity).
  split; [exact Hempty|]. split; [exact Hp|].
  exact (performance_rows_show_own_units noon fiveRecords "saleable" (sold 1 25) Hempty Hp).
Defined.

Lemma row_stock_example :
  StringToNumber "" = Num 0 /\
  (bareRecord !! "current_stock" = None ->
   rowStockIcon (productRow "rated" bareRecord) = (TrendingDown, "w-4 h-4 mr-1 text-gray-400") /\
   rowStock (productRow "rated" bareRecord) = VNum (Num 0)).
Proof.
  assert (Hempty : StringToNumber "" = Num 0) by reflexivity.
  split; [exact Hempty|].
  exact (proj2 (proj2 (row_stock "rated" bareRecord Hempty))).
Defined.

Lemma selection_invariant_example :
  reachable (render (settle initialState noon fiveRecords))
    (rowClick (sold 1 25) initialSelection) /\
  (isModalOpen (rowClick (sold 1 25) initialSelection) = true <->
   exists p, selectedProduct (rowClick (sold 1 25) initialSelection) = Some p).
Proof.
  assert (Hreach : reachable (render (settle initialState noon fiveRecords))
                     (rowClick (sold 1 25) initialSelection)).
  { apply (reach_click _ (productRow "saleable" (sold 1 25))); [apply reach_initial|].
    vm_compute. left. reflexivity. }
  split; [exact Hreach|].
  exact (proj1 (selection_invariant _ _ Hreach)).
Defined.

Lemma selected_product_was_delivered_example :
  reachable (render (fetchAnalytics initialState noon
                       (Response true (Document None))
                       (Response true (Document (Some fiveRecords)))))
    (rowClick (sold 1 25) initialSelection) /\
  selectedProduct (rowClick (sold 1 25) initialSelection) = Some (sold 1 25) /\
  exists records,
    delivered (Response true (Document None)) (Response true (Document (Some fiveRecords)))
      = Some records /\
    In (sold 1 25) records.
Proof.
  assert (Hreach : reachable (render (fetchAnalytics initialState noon
                                        (Response true (Document None))
                                        (Response true (Document (Some fiveRecords)))))
                     (rowClick (sold 1 25) initialSelection)).
  { apply (reach_click _ (productRow "saleable" (sold 1 25))); [apply reach_initial|].
    vm_compute. left. reflexivity. }
  assert (Hsel : selectedProduct (rowClick (sold 1 25) initialSelection) = Some (sold 1 25))
    by reflexivity.
  split; [exact Hreach|]. split; [exact Hsel|].
  exact (selected_product_was_delivered initialState noon _ _ _ _ Hreach Hsel).
Defined.

End ComponentFacts.
